(** * 3DBuilder: joint selection and joint dragging of the URDF viewer

    A shallow embedding of the pointer handlers of the [RobotBuilder]
    React component (src/src/components/RobotBuilder.tsx and its later
    revision, which adds [getRotationDirection]) and of the earlier
    component kept in src/src/components/RobotScene.tsx.

    JavaScript numbers are IEEE 754 binary64 values; they are modelled by
    the Standard Library's executable specification [spec_float] at
    precision 53 and maximal exponent 1024. *)

From Stdlib Require Import ZArith Bool List Lia.
From Stdlib Require Import Floats.SpecFloat.
From stdpp Require Import base gmap strings functions.
Import ListNotations.

Local Open Scope Z_scope.

(** ** JavaScript numbers *)

Module JS.

Definition prec : Z := 53.
Definition emax : Z := 1024.

Definition number := spec_float.

Definition NaN : number := S754_nan.
Definition zero : number := S754_zero false.
Definition one : number := S754_finite false 4503599627370496 (-52).

(** [fromZ n] is the number an integer literal [n] denotes. *)
Definition fromZ (n : Z) : number := binary_normalize prec emax n 0 false.

Definition add : number -> number -> number := SFadd prec emax.
Definition sub : number -> number -> number := SFsub prec emax.
Definition mul : number -> number -> number := SFmul prec emax.
Definition div : number -> number -> number := SFdiv prec emax.
(** unary minus *)
Definition neg : number -> number := SFopp.

Definition leb : number -> number -> bool := SFleb.
Definition ltb : number -> number -> bool := SFltb.

Definition isNaN (v : number) : bool :=
  match v with S754_nan => true | _ => false end.

(** ToBoolean on a number: NaN, +0 and -0 are falsy. *)
Definition truthy (v : number) : bool :=
  match v with
  | S754_nan | S754_zero _ => false
  | _ => true
  end.

(** [a || b] on numbers. *)
Definition or_else (a b : number) : number := if truthy a then a else b.

(** ToBoolean on a string: only the empty string is falsy. *)
Definition truthy_string (s : string) : bool := negb (String.eqb s "").

(** [Math.sign]: NaN and the two zeros are returned as they are. *)
Definition Math_sign (v : number) : number :=
  match v with
  | S754_nan => S754_nan
  | S754_zero s => S754_zero s
  | S754_infinity s | S754_finite s _ _ => if s then neg one else one
  end.

(** [Math.min] and [Math.max] of two arguments: NaN is contagious and
    -0 counts as smaller than +0. *)
Definition Math_min (a b : number) : number :=
  match SFcompare a b with
  | None => NaN
  | Some Lt => a
  | Some Gt => b
  | Some Eq => match a with S754_zero true => a | _ => b end
  end.

Definition Math_max (a b : number) : number :=
  match SFcompare a b with
  | None => NaN
  | Some Lt => b
  | Some Gt => a
  | Some Eq => match a with S754_zero false => a | _ => b end
  end.

(** [a === b] on numbers: NaN equals nothing, the two zeros are equal. *)
Definition strictEq : number -> number -> bool := SFeqb.

(** The integer part of a number, rounding towards zero; infinities and
    NaN give 0 as in ToInt32. *)
Definition truncate (v : number) : Z :=
  match v with
  | S754_finite s m e =>
      let magnitude :=
        if 0 <=? e then Zpos m * 2 ^ e else Zpos m / 2 ^ (- e) in
      if s then - magnitude else magnitude
  | _ => 0
  end.

(** ToInt32: the integer part modulo 2^32, read as a signed 32-bit
    integer. *)
Definition ToInt32 (v : number) : Z :=
  let int32bit := truncate v mod 2 ^ 32 in
  if 2 ^ 31 <=? int32bit then int32bit - 2 ^ 32 else int32bit.

(** [v | 0], where [None] stands for [undefined]. *)
Definition bitor0 (v : option number) : number :=
  match v with
  | Some n => fromZ (ToInt32 n)
  | None => zero
  end.

End JS.

Import JS.

(** ** three.js: the parts of the library the handlers call *)

Module THREE.

Record Vector3 := mkVector3 { x : number; y : number; z : number }.

Record Quaternion :=
  mkQuaternion { _x : number; _y : number; _z : number; _w : number }.

(** [Vector3.dot]: [this.x * v.x + this.y * v.y + this.z * v.z]. *)
Definition dot (u v : Vector3) : number :=
  add (add (mul (x u) (x v)) (mul (y u) (y v))) (mul (z u) (z v)).

(** [MathUtils.clamp(value, min, max)] is
    [Math.max(min, Math.min(max, value))]. *)
Definition clamp (value min max : number) : number :=
  Math_max min (Math_min max value).

(** A colour, identified with the 24-bit value that [getHex] and
    [getHexString] report; the string ["#" + getHexString()] and
    [Color.set] of that string are inverse to each other on it. *)
Definition Color := N.

(** [Color.set(value)]: a colour, number or string argument replaces
    the colour; any other value ([null], [undefined]) leaves it. *)
Definition Color_set (value : option Color) (this : Color) : Color :=
  match value with
  | Some c => c
  | None => this
  end.

(** The camera, reduced to what [getWorldDirection] writes into its
    target vector. *)
Record Camera := mkCamera { getWorldDirection : Vector3 }.

Record Limit := mkLimit { lower : number; upper : number }.

(** A scene-graph node together with its chain of parents.  The last
    three fields are those of urdf-loader's [URDFJoint], a subclass of
    [Object3D]; the handlers read them only on nodes whose [type] is
    ["URDFJoint"]. *)
#[local] Unset Elimination Schemes.
Inductive Object3D := mkObject3D {
  id : nat;
  type : string;
  name : string;
  quaternion : Quaternion;
  parent : option Object3D;
  jointValue : list number;
  limit : Limit;
  axis : Vector3
}.
#[local] Set Elimination Schemes.

(** Induction along the parent chain, root first. *)
Fixpoint Object3D_ind (P : Object3D -> Prop)
    (Hroot : forall i t n q jv l a, P (mkObject3D i t n q None jv l a))
    (Hchild : forall i t n q p jv l a,
        P p -> P (mkObject3D i t n q (Some p) jv l a))
    (o : Object3D) {struct o} : P o :=
  match o with
  | mkObject3D i t n q None jv l a => Hroot i t n q jv l a
  | mkObject3D i t n q (Some p) jv l a =>
      Hchild i t n q p jv l a (Object3D_ind P Hroot Hchild p)
  end.

End THREE.

Import THREE.

(** ** The joint locator *)

(** [findURDFJointFromObject] of RobotBuilder.tsx, which is
    [findURDJointFromObject] of RobotScene.tsx word for word: the loop
    [while (current) { if (current.type === "URDFJoint") return current;
    current = current.parent; } return null]. *)
Fixpoint findURDFJointFromObject (startObj : Object3D) : option Object3D :=
  if String.eqb (type startObj) "URDFJoint" then Some startObj
  else match parent startObj with
       | Some p => findURDFJointFromObject p
       | None => None
       end.

(** The same loop, counting how many nodes it inspects. *)
Fixpoint findURDFJointFromObject_visits (startObj : Object3D) : nat :=
  if String.eqb (type startObj) "URDFJoint" then 1%nat
  else match parent startObj with
       | Some p => S (findURDFJointFromObject_visits p)
       | None => 1%nat
       end.

(** The parent chain of a node: the node, its parent, ... up to the root. *)
Fixpoint parentChain (o : Object3D) : list Object3D :=
  o :: match parent o with
       | Some p => parentChain p
       | None => []
       end.

Definition isURDFJoint (o : Object3D) : bool := String.eqb (type o) "URDFJoint".

(** The number of proper ancestors of a node. *)
Definition depth (o : Object3D) : nat := Nat.pred (length (parentChain o)).

(** ** The RobotBuilder component *)

(** urdf-loader's robot: the table of its joints by name. *)
Record URDFRobot := mkURDFRobot { joints : gmap string Object3D }.

(** What a handler does to objects it does not own: the calls it makes
    on the robot and on materials, and a thrown [TypeError].  A handler
    is a function from the state before it to the state after it and
    these calls; [e.stopPropagation()] concerns the delivery of the event
    only and is left out. *)
Variant Call :=
  | robot_setJointValue (jointName : string) (value : number)
  | material_color_set (mesh : nat) (value : option Color)
  | TypeError.

(** The event object of a react-three-fiber pointer handler. *)
Record ThreeEvent := mkThreeEvent { object : Object3D; clientX : number }.

(** The repository holds the component twice.  [Src] is
    src/src/components/RobotBuilder.tsx; [Later] is the later revision of
    the same file, which returns early from [onPointerOver] when no
    joint is found and computes the drag direction with
    [getRotationDirection].  Everything else is shared. *)
Variant Revision := Src | Later.

Module RobotBuilder.

(** [const moveableColor = new THREE.Color(...)] *)
Definition moveableColor (rev : Revision) : Color :=
  match rev with
  | Src => 0xffff00%N
  | Later => 0xeeee31%N
  end.

(** [const sensitivity = 0.01] *)
Definition sensitivity : number := S754_finite false 5764607523034235 (-59).

(** The hooks of the component ([useState] values and the [current]
    fields of the [useRef] objects) and the material colours of the
    meshes of the scene, by mesh [id]. *)
Record State := mkState {
  robot : option URDFRobot;
  selectedJoint : option string;
  selectedMesh : option Object3D;
  selectedJointColor : option Color;
  isDragging : bool;
  isRotating : bool;
  lastMouseX : number;
  controlsRef : option Camera;
  material_color : nat -> Color
}.

Definition setRobot v s :=
  mkState v (selectedJoint s) (selectedMesh s) (selectedJointColor s)
    (isDragging s) (isRotating s) (lastMouseX s) (controlsRef s) (material_color s).
Definition setSelectedJoint v s :=
  mkState (robot s) v (selectedMesh s) (selectedJointColor s)
    (isDragging s) (isRotating s) (lastMouseX s) (controlsRef s) (material_color s).
Definition setSelectedMesh v s :=
  mkState (robot s) (selectedJoint s) v (selectedJointColor s)
    (isDragging s) (isRotating s) (lastMouseX s) (controlsRef s) (material_color s).
Definition set_selectedJointColor v s :=
  mkState (robot s) (selectedJoint s) (selectedMesh s) v
    (isDragging s) (isRotating s) (lastMouseX s) (controlsRef s) (material_color s).
Definition setIsDragging v s :=
  mkState (robot s) (selectedJoint s) (selectedMesh s) (selectedJointColor s)
    v (isRotating s) (lastMouseX s) (controlsRef s) (material_color s).
Definition setIsRotating v s :=
  mkState (robot s) (selectedJoint s) (selectedMesh s) (selectedJointColor s)
    (isDragging s) v (lastMouseX s) (controlsRef s) (material_color s).
Definition set_lastMouseX v s :=
  mkState (robot s) (selectedJoint s) (selectedMesh s) (selectedJointColor s)
    (isDragging s) (isRotating s) v (controlsRef s) (material_color s).
Definition set_controlsRef v s :=
  mkState (robot s) (selectedJoint s) (selectedMesh s) (selectedJointColor s)
    (isDragging s) (isRotating s) (lastMouseX s) v (material_color s).
(** [mesh.material.color.set(value)] *)
Definition set_material_color (mesh : nat) (value : option Color) s :=
  mkState (robot s) (selectedJoint s) (selectedMesh s) (selectedJointColor s)
    (isDragging s) (isRotating s) (lastMouseX s) (controlsRef s)
    (<[mesh := Color_set value (material_color s mesh)]> (material_color s)).

(** The state at mount, over a scene with the given material colours. *)
Definition initialState (colors : nat -> Color) : State :=
  mkState None None None None false false zero None colors.

(** [enableRotate={!isDragging}] on [OrbitControls]. *)
Definition enableRotate (s : State) : bool := negb (isDragging s).

(** [joint.jointValue.length] as a condition. *)
Definition hasJointValue (joint : Object3D) : bool :=
  negb (Nat.eqb (length (jointValue joint)) 0).

(** [jointValue[0] || 0] *)
Definition currentValueOf (joint : Object3D) : number :=
  match jointValue joint with
  | [] => zero
  | v :: _ => or_else v zero
  end.

Section Handlers.

(** Library code the handlers call.  [applyQuaternion v q] is the
    vector [v.clone().applyQuaternion(q)] of three.js, and
    [setJointValue robot name value] the robot after urdf-loader's
    [robot.setJointValue(name, value)]. *)
Variable applyQuaternion : Vector3 -> Quaternion -> Vector3.
Variable setJointValue : URDFRobot -> string -> number -> URDFRobot.

(** [getRotationDirection] of the later revision:
    [-Math.sign(axis.dot(forward)) || 1]. *)
Definition getRotationDirection (joint : Object3D) (camera : Camera) : number :=
  let axis := applyQuaternion (axis joint) (quaternion joint) in
  let forward := getWorldDirection camera in
  or_else (neg (Math_sign (dot axis forward))) one.

(** The direction of src/src/components/RobotBuilder.tsx:
    [-Math.sign(vector.z)] with [vector] the camera's world direction. *)
Definition direction_Src (camera : Camera) : number :=
  let vector := getWorldDirection camera in
  neg (Math_sign (z vector)).

Definition direction (rev : Revision) (joint : Object3D) (camera : Camera) : number :=
  match rev with
  | Src => direction_Src camera
  | Later => getRotationDirection joint camera
  end.

Definition onPointerOver (rev : Revision) (e : ThreeEvent) (s : State)
  : State * list Call :=
  if negb (isDragging s) && negb (isRotating s) then
    let joint := findURDFJointFromObject (object e) in
    match rev, joint with
    | Later, None => (s, [])
    | _, _ =>
        let mesh := id (object e) in
        let s1 := set_selectedJointColor (Some (material_color s mesh)) s in
        match joint with
        | Some j =>
            if hasJointValue j
            then (set_material_color mesh (Some (moveableColor rev)) s1,
                  [material_color_set mesh (Some (moveableColor rev))])
            else (s1, [])
        | None => (s1, [])
        end
    end
  else (s, []).

(** The condition is [!isDragging && selectedJointColor]; the second
    operand is the ref object, which is never null, so only the
    first one decides. *)
Definition onPointerOut (e : ThreeEvent) (s : State) : State * list Call :=
  if negb (isDragging s) then
    let mesh := id (object e) in
    let s1 := set_material_color mesh (selectedJointColor s) s in
    (set_selectedJointColor None s1,
     [material_color_set mesh (selectedJointColor s)])
  else (s, []).

Definition handlePointerDown (e : ThreeEvent) (s : State) : State * list Call :=
  match findURDFJointFromObject (object e) with
  | Some joint =>
      if hasJointValue joint then
        let s1 := setSelectedJoint (Some (name joint)) s in
        let s2 := setSelectedMesh (Some (object e)) s1 in
        let s3 := setIsDragging true s2 in
        (set_lastMouseX (clientX e) s3, [])
      else (s, [])
  | None => (s, [])
  end.

(** The body of [handlePointerMove] once [robot && isDragging &&
    selectedJoint] holds. *)
Definition dragUpdate (rev : Revision) (robot0 : URDFRobot)
    (selectedJoint0 : string) (e_clientX : number) (s : State)
  : State * list Call :=
  let dx := sub e_clientX (lastMouseX s) in
  let s1 := set_lastMouseX e_clientX s in
  match joints robot0 !! selectedJoint0 with
  | None => (s1, [TypeError])
  | Some joint =>
      let currentValue := currentValueOf joint in
      match controlsRef s with
      | None => (s1, [TypeError])
      | Some camera =>
          let direction := direction rev joint camera in
          let newValue := add currentValue (mul (mul dx sensitivity) direction) in
          let clamped := clamp newValue (lower (limit joint)) (upper (limit joint)) in
          (setRobot (Some (setJointValue robot0 selectedJoint0 clamped)) s1,
           [robot_setJointValue selectedJoint0 clamped])
      end
  end.

(** The value [dragUpdate] computes before clamping:
    [currentValue + dx * sensitivity * direction]. *)
Definition newValueOf (rev : Revision) (joint : Object3D) (camera : Camera)
    (e_clientX : number) (s : State) : number :=
  add (currentValueOf joint)
      (mul (mul (sub e_clientX (lastMouseX s)) sensitivity)
           (direction rev joint camera)).

Definition handlePointerMove (rev : Revision) (e_clientX : number) (s : State)
  : State * list Call :=
  match robot s, isDragging s, selectedJoint s with
  | Some robot0, true, Some selectedJoint0 =>
      if truthy_string selectedJoint0
      then dragUpdate rev robot0 selectedJoint0 e_clientX s
      else (s, [])
  | _, _, _ => (s, [])
  end.

(** The condition is [selectedMesh && selectedJointColor]; again the
    ref object is never null. *)
Definition handlePointerUp (s : State) : State * list Call :=
  match selectedMesh s with
  | Some mesh =>
      let s1 := set_material_color (id mesh) (selectedJointColor s) s in
      let s2 := set_selectedJointColor None s1 in
      let s3 := setIsDragging false s2 in
      let s4 := setSelectedJoint None s3 in
      (setSelectedMesh None s4,
       [material_color_set (id mesh) (selectedJointColor s)])
  | None => (s, [])
  end.

(** The loop body of the later revision's load callback:
    [clamp(joint.jointValue[0] | 0, joint.limit.lower, joint.limit.upper)]. *)
Definition naturalValue (joint : Object3D) : number :=
  let jointValue0 := bitor0 (head (jointValue joint)) in
  clamp jointValue0 (lower (limit joint)) (upper (limit joint)).

(** [Object.keys(urdf.joints).forEach(...)] of the later revision's load
    callback, over the keys in the order [Object.keys] lists them.  A key
    that is no longer in the table makes the body throw, which ends the
    loop. *)
Fixpoint setNaturalPositions (keys : list string) (urdf : URDFRobot)
  : option URDFRobot * list Call :=
  match keys with
  | [] => (Some urdf, [])
  | jointName :: keys' =>
      match joints urdf !! jointName with
      | None => (None, [TypeError])
      | Some joint =>
          let clamped := naturalValue joint in
          let '(result, calls) :=
            setNaturalPositions keys' (setJointValue urdf jointName clamped) in
          (result, robot_setJointValue jointName clamped :: calls)
      end
  end.

(** The load callback: [Src] stores the robot as it comes; [Later] first
    sets every joint to its natural position, and an exception in the
    loop leaves [setRobot] uncalled. *)
Definition onLoad (rev : Revision) (keys : list string) (urdf : URDFRobot)
    (s : State) : State * list Call :=
  match rev with
  | Src => (setRobot (Some urdf) s, [])
  | Later =>
      match setNaturalPositions keys urdf with
      | (Some urdf', calls) => (setRobot (Some urdf') s, calls)
      | (None, calls) => (s, calls)
      end
  end.

(** What can happen to the mounted component: the pointer events of
    the robot primitive, the mouse events of the window, the start and
    end notifications of [OrbitControls], the load callback on a robot
    [urdf] whose [Object.keys(urdf.joints)] is [keys], and a (new) camera
    behind [controlsRef]. *)
Variant Event :=
  | PointerOver (e : ThreeEvent)
  | PointerOut (e : ThreeEvent)
  | PointerDown (e : ThreeEvent)
  | MouseMove (e_clientX : number)
  | MouseUp
  | OrbitStart
  | OrbitEnd
  | Loaded (keys : list string) (urdf : URDFRobot)
  | Controls (camera : Camera).

Definition step (rev : Revision) (s : State) (ev : Event) : State * list Call :=
  match ev with
  | PointerOver e => onPointerOver rev e s
  | PointerOut e => onPointerOut e s
  | PointerDown e => handlePointerDown e s
  | MouseMove cx => handlePointerMove rev cx s
  | MouseUp => handlePointerUp s
  | OrbitStart => (setIsRotating true s, [])
  | OrbitEnd => (setIsRotating false s, [])
  | Loaded keys urdf => onLoad rev keys urdf s
  | Controls camera => (set_controlsRef (Some camera) s, [])
  end.

(** A sequence of events, with the calls made along the way. *)
Fixpoint run (rev : Revision) (s : State) (evs : list Event) : State * list Call :=
  match evs with
  | [] => (s, [])
  | ev :: evs' =>
      let '(s1, calls1) := step rev s ev in
      let '(s2, calls2) := run rev s1 evs' in
      (s2, calls1 ++ calls2)
  end.

Definition runState rev s evs : State := fst (run rev s evs).

(** A pointer-down begins a drag when the part it hits lies under a
    joint that has a value. *)
Definition beginsDrag (e : ThreeEvent) : bool :=
  match findURDFJointFromObject (object e) with
  | Some joint => hasJointValue joint
  | None => false
  end.

(** Whether a joint drag is under way, read off the events alone: a
    drag begins with a pointer-down that [beginsDrag] and ends with
    the next mouse-up. *)
Fixpoint dragActive (active : bool) (evs : list Event) : bool :=
  match evs with
  | [] => active
  | PointerDown e :: evs' => dragActive (active || beginsDrag e) evs'
  | MouseUp :: evs' => dragActive false evs'
  | _ :: evs' => dragActive active evs'
  end.

(** The number of drags that end in a sequence of events. *)
Fixpoint dragEnds (active : bool) (evs : list Event) : nat :=
  match evs with
  | [] => 0
  | PointerDown e :: evs' => dragEnds (active || beginsDrag e) evs'
  | MouseUp :: evs' => (if active then 1 else 0) + dragEnds false evs'
  | _ :: evs' => dragEnds active evs'
  end.

(** The number of steps of a run at which [enableRotate] goes from
    false to true. *)
Fixpoint reenabled (rev : Revision) (s : State) (evs : list Event) : nat :=
  match evs with
  | [] => 0
  | ev :: evs' =>
      let s1 := fst (step rev s ev) in
      (if negb (enableRotate s) && enableRotate s1 then 1 else 0)
      + reenabled rev s1 evs'
  end.

(** The events that can reach the component between the pointer-down
    that begins a drag and the mouse-up that ends it. *)
Definition duringDrag (ev : Event) : bool :=
  match ev with
  | PointerDown _ | MouseUp => false
  | _ => true
  end.

Definition notMouseUp (ev : Event) : bool :=
  match ev with
  | MouseUp => false
  | _ => true
  end.

(** Two states agree on what colour handling reads and writes. *)
Definition sameColors (s s' : State) : Prop :=
  isDragging s' = isDragging s
  /\ selectedMesh s' = selectedMesh s
  /\ selectedJointColor s' = selectedJointColor s
  /\ material_color s' = material_color s.

(** A dragging state always has a selected mesh, so the next mouse-up
    ends the drag. *)
Definition dragHasMesh (s : State) : Prop :=
  isDragging s = true -> selectedMesh s <> None.

Definition isColorSet (c : Call) : bool :=
  match c with
  | material_color_set _ _ => true
  | _ => false
  end.

(** Whether the camera is being orbited, read off the events alone. *)
Fixpoint orbiting (active : bool) (evs : list Event) : bool :=
  match evs with
  | [] => active
  | OrbitStart :: evs' => orbiting true evs'
  | OrbitEnd :: evs' => orbiting false evs'
  | _ :: evs' => orbiting active evs'
  end.

(** Whether [onPointerOver], when no drag and no orbit is under way,
    gets as far as storing the colour of the part: always in [Src], only
    below a joint in [Later]. *)
Definition captures (rev : Revision) (e : ThreeEvent) : bool :=
  match rev, findURDFJointFromObject (object e) with
  | Later, None => false
  | _, _ => true
  end.

(** The selection is either empty, with no drag under way, or it is a
    mesh with the name of its nearest joint, which has a value, and a
    drag is under way. *)
Definition selectionConsistent (s : State) : Prop :=
  match selectedMesh s with
  | Some mesh =>
      isDragging s = true
      /\ exists joint,
           findURDFJointFromObject mesh = Some joint
           /\ hasJointValue joint = true
           /\ selectedJoint s = Some (name joint)
  | None => isDragging s = false /\ selectedJoint s = None
  end.

(** The joint names an event makes available to [setJointValue]: the
    name of the joint a pointer-down selects, and the keys the later
    load callback loops over. *)
Definition settableBy (rev : Revision) (ev : Event) : list string :=
  match ev with
  | PointerDown e =>
      match findURDFJointFromObject (object e) with
      | Some joint => if hasJointValue joint then [name joint] else []
      | None => []
      end
  | Loaded keys _ =>
      match rev with
      | Src => []
      | Later => keys
      end
  | _ => []
  end.

Definition settable (rev : Revision) (evs : list Event) : list string :=
  concat (map (settableBy rev) evs).

(** A call that, if it sets a joint, sets one of the given names. *)
Definition setsOnly (names : list string) (c : Call) : Prop :=
  match c with
  | robot_setJointValue jointName _ => In jointName names
  | _ => True
  end.

End Handlers.

End RobotBuilder.

(** ** The earlier component of RobotScene.tsx *)

Module RobotScene.

(** [const highlightColor = new THREE.Color('#ffff00')] *)
Definition highlightColor : Color := 0xffff00%N.

(** The hooks of the component, the [currentHex] property the hover
    handler adds to a mesh ([None] while it is [undefined]) and the
    material colours, both by mesh [id]. *)
Record State := mkState {
  robot : option URDFRobot;
  selectedJoint : option string;
  isDragging : bool;
  lastMouseX : number;
  currentHex : nat -> option Color;
  material_color : nat -> Color
}.

Section Handlers.

Variable setJointValue : URDFRobot -> string -> number -> URDFRobot.

Definition onPointerOver (e : ThreeEvent) (s : State) : State * list Call :=
  let mesh := id (object e) in
  (mkState (robot s) (selectedJoint s) (isDragging s) (lastMouseX s)
     (<[mesh := Some (material_color s mesh)]> (currentHex s))
     (<[mesh := highlightColor]> (material_color s)),
   [material_color_set mesh (Some highlightColor)]).

Definition onPointerOut (e : ThreeEvent) (s : State) : State * list Call :=
  let mesh := id (object e) in
  match currentHex s mesh with
  | Some hex =>
      (mkState (robot s) (selectedJoint s) (isDragging s) (lastMouseX s)
         (currentHex s) (<[mesh := hex]> (material_color s)),
       [material_color_set mesh (Some hex)])
  | None => (s, [])
  end.

Definition handlePointerDown (e : ThreeEvent) (s : State) : State * list Call :=
  match robot s with
  | Some _ =>
      match findURDFJointFromObject (object e) with
      | Some joint =>
          (mkState (robot s) (Some (name joint)) true (clientX e)
             (currentHex s) (material_color s), [])
      | None => (s, [])
      end
  | None => (s, [])
  end.

(** The body of [handlePointerMove] once [isDragging && robot &&
    selectedJoint] holds: the new value goes to the robot as it is. *)
Definition dragUpdate (robot0 : URDFRobot) (selectedJoint0 : string)
    (e_clientX : number) (s : State) : State * list Call :=
  let dx := sub e_clientX (lastMouseX s) in
  match joints robot0 !! selectedJoint0 with
  | None =>
      (mkState (robot s) (selectedJoint s) (isDragging s) e_clientX
         (currentHex s) (material_color s), [TypeError])
  | Some joint =>
      let currentValue := RobotBuilder.currentValueOf joint in
      let newValue := add currentValue (mul dx RobotBuilder.sensitivity) in
      (mkState (Some (setJointValue robot0 selectedJoint0 newValue))
         (selectedJoint s) (isDragging s) e_clientX
         (currentHex s) (material_color s),
       [robot_setJointValue selectedJoint0 newValue])
  end.

Definition handlePointerMove (e_clientX : number) (s : State) : State * list Call :=
  match isDragging s, robot s, selectedJoint s with
  | true, Some robot0, Some selectedJoint0 =>
      if truthy_string selectedJoint0
      then dragUpdate robot0 selectedJoint0 e_clientX s
      else (s, [])
  | _, _, _ => (s, [])
  end.

Definition handlePointerUp (s : State) : State * list Call :=
  (mkState (robot s) None false (lastMouseX s)
     (currentHex s) (material_color s), []).

(** What can happen to the mounted component: the pointer events of
    the robot primitive, the mouse events of the window and the
    loader's [setRobot(urdf)]. *)
Variant Event :=
  | PointerOver (e : ThreeEvent)
  | PointerOut (e : ThreeEvent)
  | PointerDown (e : ThreeEvent)
  | MouseMove (e_clientX : number)
  | MouseUp
  | Loaded (urdf : URDFRobot).

Definition step (s : State) (ev : Event) : State * list Call :=
  match ev with
  | PointerOver e => onPointerOver e s
  | PointerOut e => onPointerOut e s
  | PointerDown e => handlePointerDown e s
  | MouseMove cx => handlePointerMove cx s
  | MouseUp => handlePointerUp s
  | Loaded urdf =>
      (mkState (Some urdf) (selectedJoint s) (isDragging s) (lastMouseX s)
         (currentHex s) (material_color s), [])
  end.

Fixpoint run (s : State) (evs : list Event) : State * list Call :=
  match evs with
  | [] => (s, [])
  | ev :: evs' =>
      let '(s1, calls1) := step s ev in
      let '(s2, calls2) := run s1 evs' in
      (s2, calls1 ++ calls2)
  end.

(** An event that is not a pointer-over of the given mesh. *)
Definition notOverOf (mesh : nat) (ev : Event) : bool :=
  match ev with
  | PointerOver e => negb (Nat.eqb (id (object e)) mesh)
  | _ => true
  end.

End Handlers.

End RobotScene.

(** The contract in the words of the specification: the nearest node of
    the parent chain whose kind is the articulated joint. *)
Definition nearestJoint (startObj : Object3D) : option Object3D :=
  List.find isURDFJoint (parentChain startObj).

(** A number that is neither NaN nor an infinity. *)
Definition isFinite (v : number) : bool :=
  match v with
  | S754_zero _ | S754_finite _ _ _ => true
  | _ => false
  end.

(** ** A small robot for the scenarios *)

Module Scenario.

Definition identity : Quaternion := mkQuaternion zero zero zero one.
Definition unitZ : Vector3 := mkVector3 zero zero one.
Definition noLimit : Limit := mkLimit zero zero.

(** [2.5] and [250] as binary64 values. *)
Definition two_and_a_half : number := S754_finite false 5629499534213120 (-51).
Definition n250 : number := fromZ 250.

Definition root : Object3D :=
  mkObject3D 0 "URDFRobot" "cassie" identity None [] noLimit unitZ.
(** a fixed joint: no degree of freedom, [jointValue] is empty *)
Definition mount : Object3D :=
  mkObject3D 1 "URDFJoint" "mount" identity (Some root) [] noLimit unitZ.
Definition pelvis : Object3D :=
  mkObject3D 2 "URDFLink" "pelvis" identity (Some mount) [] noLimit unitZ.
Definition pelvisMesh : Object3D :=
  mkObject3D 3 "Mesh" "" identity (Some pelvis) [] noLimit unitZ.
(** a revolute joint with limits [-1, 1] at value 0 *)
Definition hip : Object3D :=
  mkObject3D 4 "URDFJoint" "hip" identity (Some pelvis) [zero]
    (mkLimit (neg one) one) unitZ.
Definition thigh : Object3D :=
  mkObject3D 5 "URDFLink" "thigh" identity (Some hip) [] noLimit unitZ.
Definition thighMesh : Object3D :=
  mkObject3D 6 "Mesh" "" identity (Some thigh) [] noLimit unitZ.
(** a revolute joint whose axis points along -z *)
Definition knee : Object3D :=
  mkObject3D 8 "URDFJoint" "knee" identity (Some thigh) [zero]
    (mkLimit (neg one) one) (mkVector3 zero zero (neg one)).
(** [0.7] as a binary64 value *)
Definition seven_tenths : number := Eval vm_compute in div (fromZ 7) (fromZ 10).
(** a revolute joint that the URDF places at 0.7 *)
Definition ankle : Object3D :=
  mkObject3D 9 "URDFJoint" "ankle" identity (Some thigh) [seven_tenths]
    (mkLimit (neg one) one) unitZ.
(** geometry outside every joint *)
Definition floorMesh : Object3D :=
  mkObject3D 7 "Mesh" "" identity (Some root) [] noLimit unitZ.

Definition cassie : URDFRobot :=
  mkURDFRobot (<["mount" := mount]> (<["hip" := hip]> ∅)).

Definition grey : Color := 0x808080%N.
Definition colors : nat -> Color := fun _ => grey.

(** a camera looking along -z, and one looking along +x *)
Definition cameraBack : Camera := mkCamera (mkVector3 zero zero (neg one)).
Definition cameraSide : Camera := mkCamera (mkVector3 one zero zero).
(** a camera looking along +z *)
Definition cameraFront : Camera := mkCamera (mkVector3 zero zero one).

(** [Vector3.applyQuaternion] as three.js computes it. *)
Definition applyQuaternion (v : Vector3) (q : Quaternion) : Vector3 :=
  let two := fromZ 2 in
  let tx := mul two (sub (mul (_y q) (z v)) (mul (_z q) (y v))) in
  let ty := mul two (sub (mul (_z q) (x v)) (mul (_x q) (z v))) in
  let tz := mul two (sub (mul (_x q) (y v)) (mul (_y q) (x v))) in
  mkVector3
    (sub (add (add (x v) (mul (_w q) tx)) (mul (_y q) tz)) (mul (_z q) ty))
    (sub (add (add (y v) (mul (_w q) ty)) (mul (_z q) tx)) (mul (_x q) tz))
    (sub (add (add (z v) (mul (_w q) tz)) (mul (_x q) ty)) (mul (_y q) tx)).

(** A robot whose [setJointValue] stores the value it is given. *)
Definition setJointValue (r : URDFRobot) (jointName : string) (value : number)
  : URDFRobot :=
  match joints r !! jointName with
  | Some j =>
      mkURDFRobot
        (<[jointName := mkObject3D (id j) (type j) (name j) (quaternion j)
                          (parent j) [value] (limit j) (axis j)]> (joints r))
  | None => r
  end.

(** The component of RobotScene.tsx while the hip is dragged. *)
Definition sceneDragging : RobotScene.State :=
  RobotScene.mkState (Some cassie) (Some "hip") true zero (fun _ => None) colors.

Definition sceneIdle : RobotScene.State :=
  RobotScene.mkState (Some cassie) None false zero (fun _ => None) colors.

(** Dragging the hip: the pointer last seen at x = 0. *)
Definition dragging : RobotBuilder.State :=
  RobotBuilder.mkState (Some cassie) (Some "hip") (Some thighMesh) (Some grey)
    true false zero (Some cameraBack) colors.

Definition idle : RobotBuilder.State :=
  RobotBuilder.mkState (Some cassie) None None None
    false false zero (Some cameraBack) colors.

Definition over (o : Object3D) : ThreeEvent := mkThreeEvent o zero.

(** A robot without joints. *)
Definition bare : URDFRobot := mkURDFRobot ∅.

(** A robot whose only joint is the fixed mount. *)
Definition mountOnly : URDFRobot := mkURDFRobot (<["mount" := mount]> ∅).

(** The pointer rests on the highlighted thigh mesh, whose grey is held
    as captured. *)
Definition hovering : RobotBuilder.State :=
  RobotBuilder.mkState (Some cassie) None None (Some grey)
    false false zero (Some cameraBack)
    (<[6%nat := RobotBuilder.moveableColor Src]> colors).

End Scenario.

(** * Properties *)

(** ** The constants *)

(** The literals of the source are the binary64 values used here. *)
Lemma literals :
  fromZ 1 = one
  /\ div (fromZ 1) (fromZ 100) = RobotBuilder.sensitivity
  /\ div (fromZ 5) (fromZ 2) = Scenario.two_and_a_half
  /\ valid_binary prec emax RobotBuilder.sensitivity = true.
Proof. repeat split. Qed.

(** ** Order of JavaScript numbers *)

Lemma SFcompare_antisym (a b : number) :
  SFcompare b a = option_map CompOpp (SFcompare a b).
Proof.
  destruct a as [sa|sa| |sa ma ea], b as [sb|sb| |sb mb eb]; cbn;
    try reflexivity; try (destruct sa; reflexivity);
    try (destruct sb; reflexivity); try (destruct sa, sb; reflexivity).
  destruct sa, sb; cbn; try reflexivity;
    rewrite (Z.compare_antisym ea eb); destruct (ea ?= eb) eqn:He; cbn;
    try reflexivity;
    pose proof (Pos.compare_cont_antisym ma mb Eq) as Hm; cbn in Hm;
    rewrite <- Hm; destruct (Pos.compare_cont Eq ma mb); reflexivity.
Qed.

Lemma SFcompare_refl (a : number) : isNaN a = false -> SFcompare a a = Some Eq.
Proof.
  destruct a as [s|s| |s m e]; cbn; intros H; try discriminate;
    try (destruct s; reflexivity).
  rewrite Z.compare_refl, Pos.compare_cont_refl. destruct s; reflexivity.
Qed.

Lemma SFcompare_None (a b : number) :
  SFcompare a b = None -> isNaN a = true \/ isNaN b = true.
Proof.
  destruct a, b; cbn; intros H; try discriminate; auto.
Qed.

(** Comparisons do not see the sign of a zero. *)
Lemma SFcompare_zero_r (a : number) (s s' : bool) :
  SFcompare a (S754_zero s) = SFcompare a (S754_zero s').
Proof. destruct a; reflexivity. Qed.

Lemma SFcompare_zero_l (a : number) (s s' : bool) :
  SFcompare (S754_zero s) a = SFcompare (S754_zero s') a.
Proof. destruct a; reflexivity. Qed.

Lemma leb_refl (a : number) : isNaN a = false -> leb a a = true.
Proof. intros H. unfold leb, SFleb. now rewrite SFcompare_refl. Qed.

Lemma leb_not_NaN (a b : number) :
  leb a b = true -> isNaN a = false /\ isNaN b = false.
Proof.
  unfold leb, SFleb. destruct (SFcompare a b) eqn:E; [|discriminate].
  intros _. destruct a, b; cbn in *; try discriminate; auto.
Qed.

Lemma leb_of_Gt (a b : number) : SFcompare a b = Some Gt -> leb b a = true.
Proof.
  intros H. unfold leb, SFleb. now rewrite SFcompare_antisym, H.
Qed.

Lemma leb_of_Eq_sym (a b : number) : SFcompare a b = Some Eq -> leb b a = true.
Proof.
  intros H. unfold leb, SFleb. now rewrite SFcompare_antisym, H.
Qed.

Lemma leb_of_Lt (a b : number) : SFcompare a b = Some Lt -> leb a b = true.
Proof. intros H. unfold leb, SFleb. now rewrite H. Qed.

Lemma leb_of_Eq (a b : number) : SFcompare a b = Some Eq -> leb a b = true.
Proof. intros H. unfold leb, SFleb. now rewrite H. Qed.

Create HintDb jsnum.
#[local] Hint Resolve leb_refl leb_of_Gt leb_of_Eq_sym leb_of_Lt leb_of_Eq : jsnum.

(** [clamp] returns a value between the limits whenever the limits are
    ordered and the value is a number. *)
Lemma clamp_within (value lo hi : number) :
  leb lo hi = true -> isNaN value = false ->
  leb lo (clamp value lo hi) = true /\ leb (clamp value lo hi) hi = true.
Proof.
  intros Hlh Hv.
  destruct (leb_not_NaN _ _ Hlh) as [Hlo Hhi].
  assert (Hlo' : leb lo lo = true) by auto with jsnum.
  assert (Hhi' : leb hi hi = true) by auto with jsnum.
  assert (Hmax : forall m, isNaN m = false -> leb m hi = true ->
             leb lo (Math_max lo m) = true /\ leb (Math_max lo m) hi = true).
  { intros m Hm Hmh. unfold Math_max.
    destruct (SFcompare lo m) as [[]|] eqn:E.
    - destruct lo as [[]| | |]; auto with jsnum.
    - auto with jsnum.
    - auto with jsnum.
    - destruct (SFcompare_None _ _ E); congruence. }
  unfold clamp, Math_min.
  destruct (SFcompare hi value) as [[]|] eqn:E.
  - destruct hi as [[]| | |]; apply Hmax; auto with jsnum.
  - apply Hmax; auto.
  - apply Hmax; auto with jsnum.
  - destruct (SFcompare_None _ _ E); congruence.
Qed.

(** ** The joint locator *)


Lemma parentChain_length (o : Object3D) : (1 <= length (parentChain o))%nat.
Proof. destruct o; cbn; lia. Qed.

(** C7.  For every start node the locator returns the first node of the
    parent chain (the start node, its parent, and so on up to the root)
    whose type is URDFJoint, and none when the chain has no such node;
    for a start node that is not itself a joint, such as a visual part,
    this is its nearest joint among its proper ancestors.  It inspects
    exactly the nodes in front of and including the one it returns,
    hence at most one node per level between the start node and the
    root.  Being a function of the start node and its chain alone, it is
    deterministic and changes nothing. *)
Theorem findURDFJointFromObject_nearest (startObj : Object3D) :
  findURDFJointFromObject startObj = nearestJoint startObj
  /\ findURDFJointFromObject startObj =
       (if isURDFJoint startObj then Some startObj
        else match parent startObj with
             | Some p => nearestJoint p
             | None => None
             end)
  /\ match findURDFJointFromObject startObj with
     | Some joint =>
         exists before after,
           parentChain startObj = before ++ joint :: after
           /\ type joint = "URDFJoint"
           /\ Forall (fun o => type o <> "URDFJoint") before
           /\ findURDFJointFromObject_visits startObj = S (length before)
     | None =>
         Forall (fun o => type o <> "URDFJoint") (parentChain startObj)
         /\ findURDFJointFromObject_visits startObj = length (parentChain startObj)
     end
  /\ (findURDFJointFromObject_visits startObj <= S (depth startObj))%nat.
Proof.
  unfold nearestJoint, depth.
  induction startObj as [i t n q jv l a | i t n q p jv l a IH] using Object3D_ind.
  - cbn. unfold isURDFJoint; cbn.
    destruct (String.eqb_spec t "URDFJoint") as [E|E].
    + repeat split; trivial. exists [], []. cbn. repeat split; auto.
    + repeat split; auto.
  - destruct IH as (IH1 & _ & IH2 & IH3).
    cbn. unfold isURDFJoint at 1 2; cbn.
    destruct (String.eqb_spec t "URDFJoint") as [E|E].
    + repeat split; trivial; [|lia]. exists [], (parentChain p). cbn. repeat split; auto.
    + split; [exact IH1|]. split; [exact IH1|]. split.
      * destruct (findURDFJointFromObject p) as [j|].
        -- destruct IH2 as (before & after & Hc & Hj & Hb & Hv).
           exists (mkObject3D i t n q (Some p) jv l a :: before), after.
           cbn. rewrite Hc, Hv. repeat split; auto.
        -- destruct IH2 as [Hall Hv]. rewrite Hv. split; auto.
      * pose proof (parentChain_length p). lia.
Qed.

(** ** Arithmetic never invents a NaN from finite operands *)


Lemma shr_1_nonneg (mrs : shr_record) : 0 <= shr_m mrs -> 0 <= shr_m (shr_1 mrs).
Proof.
  destruct mrs as [m r s]; cbn. destruct m as [|[p|p|]|p]; cbn; lia.
Qed.

Lemma iter_shr_1_nonneg (p : positive) :
  forall mrs, 0 <= shr_m mrs -> 0 <= shr_m (SpecFloat.iter_pos shr_1 p mrs).
Proof.
  induction p as [p IH|p IH|]; cbn; intros mrs H.
  - apply IH, IH, shr_1_nonneg, H.
  - apply IH, IH, H.
  - apply shr_1_nonneg, H.
Qed.

Lemma shr_fexp_nonneg (m e : Z) (l : location) :
  0 <= m -> 0 <= shr_m (fst (shr_fexp prec emax m e l)).
Proof.
  intros H. unfold shr_fexp, shr.
  assert (H0 : 0 <= shr_m (shr_record_of_loc m l)) by (destruct l as [|[]]; exact H).
  destruct (fexp prec emax (Zdigits2 m + e) - e); cbn; trivial.
  apply iter_shr_1_nonneg, H0.
Qed.

Lemma round_nearest_even_nonneg (m : Z) (l : location) :
  0 <= m -> 0 <= round_nearest_even m l.
Proof.
  intros H. destruct l as [|[]]; cbn; try lia. destruct (Z.even m); lia.
Qed.

Lemma binary_round_aux_not_NaN (s : bool) (m e : Z) (l : location) :
  0 <= m -> isNaN (binary_round_aux prec emax s m e l) = false.
Proof.
  intros H. unfold binary_round_aux.
  pose proof (shr_fexp_nonneg m e l H) as H1.
  destruct (shr_fexp prec emax m e l) as [mrs' e']. cbn in H1.
  pose proof (shr_fexp_nonneg _ e' loc_Exact
                (round_nearest_even_nonneg _ (loc_of_shr_record mrs') H1)) as H2.
  destruct (shr_fexp prec emax _ e' loc_Exact) as [mrs'' e'']. cbn in H2.
  destruct (shr_m mrs'') as [|q|q]; [reflexivity| |lia].
  destruct (e'' <=? emax - prec); reflexivity.
Qed.

Lemma binary_normalize_not_NaN (m e : Z) (szero : bool) :
  isNaN (binary_normalize prec emax m e szero) = false.
Proof.
  destruct m as [|q|q]; cbn; [reflexivity| |];
    unfold binary_round;
    destruct (shl_align _ _ _) as [mz ez];
    apply binary_round_aux_not_NaN; lia.
Qed.

Lemma sub_not_NaN (a b : number) :
  isFinite a = true -> isFinite b = true -> isNaN (sub a b) = false.
Proof.
  destruct a as [sa|sa| |sa ma ea], b as [sb|sb| |sb mb eb]; cbn;
    intros Ha Hb; try discriminate; trivial.
  - destruct sa, sb; reflexivity.
  - apply binary_normalize_not_NaN.
Qed.

Lemma add_not_NaN (a b : number) :
  isFinite a = true -> isNaN b = false -> isNaN (add a b) = false.
Proof.
  destruct a as [sa|sa| |sa ma ea], b as [sb|sb| |sb mb eb]; cbn;
    intros Ha Hb; try discriminate; trivial.
  - destruct sa, sb; reflexivity.
  - apply binary_normalize_not_NaN.
Qed.

Lemma mul_not_NaN (a : number) (sb : bool) (mb : positive) (eb : Z) :
  isNaN a = false -> isNaN (mul a (S754_finite sb mb eb)) = false.
Proof.
  destruct a as [sa|sa| |sa ma ea]; cbn; intros Ha; try discriminate; trivial.
  apply binary_round_aux_not_NaN. lia.
Qed.


(** ** Drag update *)

Section DragUpdate.

Variable applyQuaternion : Vector3 -> Quaternion -> Vector3.
Variable setJointValue : URDFRobot -> string -> number -> URDFRobot.

#[local] Abbreviation handlePointerMove :=
  (RobotBuilder.handlePointerMove applyQuaternion setJointValue).
#[local] Abbreviation direction := (RobotBuilder.direction applyQuaternion).
#[local] Abbreviation getRotationDirection :=
  (RobotBuilder.getRotationDirection applyQuaternion).
#[local] Abbreviation newValueOf := (RobotBuilder.newValueOf applyQuaternion).

(** While a joint is being dragged, a pointer move makes exactly one call
    on the robot: it sets the selected joint to the clamped new value. *)
Lemma handlePointerMove_applies (rev : Revision) (s : RobotBuilder.State)
    (robot0 : URDFRobot) (jointName : string) (joint : Object3D)
    (camera : Camera) (e_clientX : number) :
  RobotBuilder.robot s = Some robot0 ->
  RobotBuilder.isDragging s = true ->
  RobotBuilder.selectedJoint s = Some jointName ->
  jointName <> "" ->
  joints robot0 !! jointName = Some joint ->
  RobotBuilder.controlsRef s = Some camera ->
  snd (handlePointerMove rev e_clientX s) =
    [robot_setJointValue jointName
       (clamp (newValueOf rev joint camera e_clientX s)
              (lower (limit joint)) (upper (limit joint)))].
Proof.
  intros Hr Hd Hs Hn Hj Hc.
  unfold RobotBuilder.handlePointerMove. rewrite Hr, Hd, Hs.
  unfold truthy_string. destruct (String.eqb_spec jointName "") as [E|_]; [contradiction|].
  cbn. unfold RobotBuilder.dragUpdate. rewrite Hj. cbn. rewrite Hc. reflexivity.
Qed.

(** In both revisions of RobotBuilder.tsx the applied value lies within
    the limits of the joint, provided the limits are ordered and the new
    value is a number. *)
Lemma handlePointerMove_within_limits (rev : Revision) (s : RobotBuilder.State)
    (robot0 : URDFRobot) (jointName : string) (joint : Object3D)
    (camera : Camera) (e_clientX : number) :
  RobotBuilder.robot s = Some robot0 ->
  RobotBuilder.isDragging s = true ->
  RobotBuilder.selectedJoint s = Some jointName ->
  jointName <> "" ->
  joints robot0 !! jointName = Some joint ->
  RobotBuilder.controlsRef s = Some camera ->
  leb (lower (limit joint)) (upper (limit joint)) = true ->
  isNaN (newValueOf rev joint camera e_clientX s) = false ->
  exists value,
    snd (handlePointerMove rev e_clientX s) = [robot_setJointValue jointName value]
    /\ value = clamp (newValueOf rev joint camera e_clientX s)
                 (lower (limit joint)) (upper (limit joint))
    /\ leb (lower (limit joint)) value = true
    /\ leb value (upper (limit joint)) = true.
Proof.
  intros Hr Hd Hs Hn Hj Hc Hl Hv.
  eexists. split; [eapply handlePointerMove_applies; eassumption|].
  split; [reflexivity|]. now apply clamp_within.
Qed.

(** [getRotationDirection] is minus the sign of the dot product of the
    joint axis, turned by the joint's quaternion, with the camera's world
    direction; it is +1 when the product is a zero (or NaN), so it is
    always +1 or -1. *)
Lemma getRotationDirection_sign (joint : Object3D) (camera : Camera) :
  let d := dot (applyQuaternion (axis joint) (quaternion joint))
               (getWorldDirection camera) in
  getRotationDirection joint camera =
    match d with
    | S754_nan | S754_zero _ => one
    | S754_infinity negative | S754_finite negative _ _ =>
        if negative then one else neg one
    end
  /\ (getRotationDirection joint camera = one
      \/ getRotationDirection joint camera = neg one).
Proof.
  cbv zeta. unfold RobotBuilder.getRotationDirection.
  destruct (dot _ _) as [sd|[]| |[] md ed]; cbn; auto.
Qed.

(** With [getRotationDirection] the new value is a number whenever the
    pointer coordinates and the joint value are finite. *)
Lemma newValueOf_Later_not_NaN (joint : Object3D) (camera : Camera)
    (e_clientX : number) (s : RobotBuilder.State) :
  isFinite e_clientX = true ->
  isFinite (RobotBuilder.lastMouseX s) = true ->
  isFinite (RobotBuilder.currentValueOf joint) = true ->
  isNaN (newValueOf Later joint camera e_clientX s) = false.
Proof.
  intros Hx Hl Hc. unfold newValueOf. apply add_not_NaN; [exact Hc|].
  assert (Hdx : isNaN (mul (sub e_clientX (RobotBuilder.lastMouseX s))
                           RobotBuilder.sensitivity) = false)
    by (apply mul_not_NaN, sub_not_NaN; assumption).
  destruct (getRotationDirection_sign joint camera) as [_ [E|E]];
    cbn [RobotBuilder.direction]; rewrite E; apply mul_not_NaN, Hdx.
Qed.

(** The value the next drag update reads from a joint that holds [value]
    lies within the limits that [value] lies within. *)
Lemma currentValueOf_within (joint : Object3D) (value lo hi : number) :
  head (jointValue joint) = Some value ->
  leb lo value = true -> leb value hi = true ->
  leb lo (RobotBuilder.currentValueOf joint) = true
  /\ leb (RobotBuilder.currentValueOf joint) hi = true.
Proof.
  intros Hh Hlo Hhi. unfold RobotBuilder.currentValueOf.
  destruct (jointValue joint) as [|v l]; [discriminate|].
  cbn in Hh. injection Hh as ->. unfold or_else.
  destruct value as [sv|sv| |sv mv ev]; cbn [truthy]; now split.
Qed.

(** C1.  In both revisions of RobotBuilder.tsx, for every joint of the
    robot and every mouse move while that joint is dragged, the apply
    step is one call [robot.setJointValue(selectedJoint, value)] with
    [value = clamp(currentValue + dx * sensitivity * direction, lower,
    upper)], and [lower <= value <= upper], for limits that are ordered
    and a new value that is a number.  The robot after the step is the
    one [setJointValue] returns for that value, and whenever that robot
    holds the value for the joint, with the limits it had, the joint's
    current value lies within its limits. *)
Theorem drag_update_applies_clamped_value (rev : Revision)
    (s : RobotBuilder.State) (robot0 : URDFRobot) (jointName : string)
    (joint : Object3D) (camera : Camera) (e_clientX : number) :
  RobotBuilder.robot s = Some robot0 ->
  RobotBuilder.isDragging s = true ->
  RobotBuilder.selectedJoint s = Some jointName ->
  jointName <> "" ->
  joints robot0 !! jointName = Some joint ->
  RobotBuilder.controlsRef s = Some camera ->
  leb (lower (limit joint)) (upper (limit joint)) = true ->
  isNaN (newValueOf rev joint camera e_clientX s) = false ->
  let value := clamp (newValueOf rev joint camera e_clientX s)
                 (lower (limit joint)) (upper (limit joint)) in
  handlePointerMove rev e_clientX s
  = (RobotBuilder.setRobot (Some (setJointValue robot0 jointName value))
       (RobotBuilder.set_lastMouseX e_clientX s),
     [robot_setJointValue jointName value])
  /\ leb (lower (limit joint)) value = true
  /\ leb value (upper (limit joint)) = true
  /\ (forall joint',
        joints (setJointValue robot0 jointName value) !! jointName = Some joint' ->
        head (jointValue joint') = Some value ->
        limit joint' = limit joint ->
        leb (lower (limit joint')) (RobotBuilder.currentValueOf joint') = true
        /\ leb (RobotBuilder.currentValueOf joint') (upper (limit joint')) = true).
Proof.
  intros Hr Hd Hs Hn Hj Hc Hl Hv. cbv zeta.
  destruct (clamp_within _ _ _ Hl Hv) as [H1 H2].
  split; [|split; [exact H1|split; [exact H2|]]].
  - unfold RobotBuilder.handlePointerMove. rewrite Hr, Hd, Hs.
    unfold truthy_string.
    destruct (String.eqb_spec jointName "") as [E|_]; [contradiction|].
    cbn. unfold RobotBuilder.dragUpdate. rewrite Hj. cbn. rewrite Hc. reflexivity.
  - intros joint' _ Hh ->. now apply currentValueOf_within with (1 := Hh).
Qed.

End DragUpdate.

(** ** Cases of the drag update and of pointer-down *)

Section Cases.

Variable applyQuaternion : Vector3 -> Quaternion -> Vector3.
Variable setJointValue : URDFRobot -> string -> number -> URDFRobot.

#[local] Abbreviation handlePointerMove :=
  (RobotBuilder.handlePointerMove applyQuaternion setJointValue).
#[local] Abbreviation direction := (RobotBuilder.direction applyQuaternion).
#[local] Abbreviation newValueOf := (RobotBuilder.newValueOf applyQuaternion).

(** C5.  A joint with limits [-1, 1] at value 0 is dragged; the direction
    is +1 and the pointer has moved 250 pixels to the right since the
    last event.  The new value is 0 + 250 * 0.01 * 1 = 2.5 and the value
    set on the joint is the upper limit 1. *)
Theorem drag_250_pixels_clamps_to_upper (rev : Revision) (s : RobotBuilder.State)
    (robot0 : URDFRobot) (jointName : string) (joint : Object3D)
    (camera : Camera) (e_clientX : number) :
  RobotBuilder.robot s = Some robot0 ->
  RobotBuilder.isDragging s = true ->
  RobotBuilder.selectedJoint s = Some jointName ->
  jointName <> "" ->
  joints robot0 !! jointName = Some joint ->
  RobotBuilder.controlsRef s = Some camera ->
  limit joint = mkLimit (neg one) one ->
  RobotBuilder.currentValueOf joint = zero ->
  direction rev joint camera = one ->
  sub e_clientX (RobotBuilder.lastMouseX s) = fromZ 250 ->
  newValueOf rev joint camera e_clientX s = Scenario.two_and_a_half
  /\ snd (handlePointerMove rev e_clientX s) = [robot_setJointValue jointName one].
Proof.
  intros Hr Hd Hs Hn Hj Hc Hl Hv Hdir Hdx.
  assert (E : newValueOf rev joint camera e_clientX s = Scenario.two_and_a_half).
  { unfold RobotBuilder.newValueOf. rewrite Hv, Hdir, Hdx. vm_compute. reflexivity. }
  split; [exact E|].
  rewrite (handlePointerMove_applies applyQuaternion setJointValue rev s robot0
             jointName joint camera e_clientX Hr Hd Hs Hn Hj Hc).
  rewrite E, Hl. vm_compute. reflexivity.
Qed.

(** C2, src/src/components/RobotBuilder.tsx.  With the camera looking
    along the x axis the direction is [-Math.sign(0)], the zero -0: it is
    neither +1 nor -1, and a drag of 250 pixels sets the hip joint to 0,
    where it already is.  The joint axis does not enter: for the knee,
    whose axis points along -z, seen by a camera looking along +z, the
    direction is -1 where [getRotationDirection] of the later revision
    gives +1. *)
Theorem direction_Src_is_zero_in_side_view (joint : Object3D) :
  direction Src joint Scenario.cameraSide = S754_zero true
  /\ direction Src joint Scenario.cameraSide <> one
  /\ direction Src joint Scenario.cameraSide <> neg one
  /\ snd (handlePointerMove Src Scenario.n250
            (RobotBuilder.set_controlsRef (Some Scenario.cameraSide) Scenario.dragging))
     = [robot_setJointValue "hip" zero]
  /\ direction Src Scenario.knee Scenario.cameraFront = neg one
  /\ RobotBuilder.getRotationDirection Scenario.applyQuaternion
       Scenario.knee Scenario.cameraFront = one.
Proof.
  repeat split; discriminate.
Qed.

(** RobotScene.tsx, the earlier component that no file mounts, has no
    clamp: its [handlePointerMove] hands the new value to the robot as it
    is.  For the hip joint with limits [-1, 1] at 0 and a pointer move of
    250 pixels the value handed over is 2.5. *)
Theorem RobotScene_handlePointerMove_exceeds_limit :
  snd (RobotScene.handlePointerMove setJointValue Scenario.n250 Scenario.sceneDragging)
    = [robot_setJointValue "hip" Scenario.two_and_a_half]
  /\ upper (limit Scenario.hip) = one
  /\ leb Scenario.two_and_a_half (upper (limit Scenario.hip)) = false.
Proof.
  repeat split.
Qed.

(** RobotScene.tsx, the earlier component, does not tell movable joints
    from fixed ones: its [handlePointerDown] only asks whether a joint
    was found, so a pointer-down on the pelvis mesh, whose joint is fixed,
    selects that joint, enters dragging and moves the anchor. *)
Theorem RobotScene_handlePointerDown_drags_fixed_joint :
  let e := mkThreeEvent Scenario.pelvisMesh Scenario.n250 in
  let s := fst (RobotScene.handlePointerDown e Scenario.sceneIdle) in
  findURDFJointFromObject Scenario.pelvisMesh = Some Scenario.mount
  /\ jointValue Scenario.mount = []
  /\ RobotScene.selectedJoint Scenario.sceneIdle = None
  /\ RobotScene.isDragging Scenario.sceneIdle = false
  /\ RobotScene.selectedJoint s = Some "mount"
  /\ RobotScene.isDragging s = true
  /\ RobotScene.lastMouseX s = Scenario.n250.
Proof.
  repeat split.
Qed.

End Cases.

(** ** The interaction state machine *)

Section Interaction.

Variable applyQuaternion : Vector3 -> Quaternion -> Vector3.
Variable setJointValue : URDFRobot -> string -> number -> URDFRobot.

Import RobotBuilder.

#[local] Abbreviation step := (RobotBuilder.step applyQuaternion setJointValue).
#[local] Abbreviation run := (RobotBuilder.run applyQuaternion setJointValue).
#[local] Abbreviation runState := (RobotBuilder.runState applyQuaternion setJointValue).
#[local] Abbreviation reenabled := (RobotBuilder.reenabled applyQuaternion setJointValue).

Lemma run_app (rev : Revision) (evs1 evs2 : list Event) :
  forall s,
    run rev s (evs1 ++ evs2) =
      (fst (run rev (fst (run rev s evs1)) evs2),
       snd (run rev s evs1) ++ snd (run rev (fst (run rev s evs1)) evs2)).
Proof.
  induction evs1 as [|ev evs1 IH]; intros s; cbn.
  - now destruct (run rev s evs2).
  - destruct (step rev s ev) as [s1 c1]. rewrite IH.
    destruct (run rev s1 evs1) as [s2 c2]; cbn.
    now rewrite app_assoc.
Qed.

Lemma sameColors_refl (s : State) : sameColors s s.
Proof. now repeat split. Qed.

Lemma sameColors_trans (s1 s2 s3 : State) :
  sameColors s1 s2 -> sameColors s2 s3 -> sameColors s1 s3.
Proof.
  intros (A1 & A2 & A3 & A4) (B1 & B2 & B3 & B4). repeat split; congruence.
Qed.

(** The load callback touches the robot only, and sets no colour. *)
Lemma setNaturalPositions_no_color (keys : list string) :
  forall urdf,
    List.filter isColorSet
      (snd (RobotBuilder.setNaturalPositions setJointValue keys urdf)) = [].
Proof.
  induction keys as [|k keys IH]; intros urdf; cbn; [reflexivity|].
  destruct (joints urdf !! k) as [j|]; [|reflexivity].
  specialize (IH (setJointValue urdf k (naturalValue j))).
  now destruct (RobotBuilder.setNaturalPositions setJointValue keys _).
Qed.

Lemma onLoad_cases (rev : Revision) (keys : list string) (urdf : URDFRobot)
    (s : State) :
  (fst (RobotBuilder.onLoad setJointValue rev keys urdf s) = s
   \/ exists u, fst (RobotBuilder.onLoad setJointValue rev keys urdf s)
                = setRobot (Some u) s)
  /\ List.filter isColorSet
       (snd (RobotBuilder.onLoad setJointValue rev keys urdf s)) = [].
Proof.
  unfold RobotBuilder.onLoad. destruct rev; [split; eauto|].
  pose proof (setNaturalPositions_no_color keys urdf) as H.
  destruct (RobotBuilder.setNaturalPositions setJointValue keys urdf) as [[u|] c];
    cbn in *; split; eauto.
Qed.

(** While a drag is under way, no event other than a pointer-down or a
    mouse-up touches the selection, the captured colour or a material. *)
Lemma step_duringDrag (rev : Revision) (s : State) (ev : Event) :
  duringDrag ev = true -> isDragging s = true ->
  sameColors s (fst (step rev s ev))
  /\ List.filter isColorSet (snd (step rev s ev)) = [].
Proof.
  intros Hev Hd. destruct ev; try discriminate; cbn.
  - unfold onPointerOver. rewrite Hd. cbn. split; [apply sameColors_refl|reflexivity].
  - unfold onPointerOut. rewrite Hd. cbn. split; [apply sameColors_refl|reflexivity].
  - unfold handlePointerMove. rewrite Hd.
    destruct (robot s) as [r|]; [|split; [apply sameColors_refl|reflexivity]].
    destruct (selectedJoint s) as [n|]; [|split; [apply sameColors_refl|reflexivity]].
    destruct (truthy_string n); [|split; [apply sameColors_refl|reflexivity]].
    unfold dragUpdate.
    destruct (joints r !! n) as [j|]; cbn;
      [destruct (controlsRef s); cbn|]; now repeat split.
  - now repeat split.
  - now repeat split.
  - destruct (onLoad_cases rev keys urdf s) as [[E|[u E]] Hc]; rewrite E;
      (split; [now repeat split|exact Hc]).
  - now repeat split.
Qed.

Lemma run_duringDrag (rev : Revision) (evs : list Event) :
  forall s,
    forallb duringDrag evs = true -> isDragging s = true ->
    sameColors s (fst (run rev s evs))
    /\ List.filter isColorSet (snd (run rev s evs)) = [].
Proof.
  induction evs as [|ev evs IH]; intros s Hevs Hd; cbn.
  - split; [apply sameColors_refl|reflexivity].
  - cbn in Hevs. apply andb_true_iff in Hevs as [Hev Hevs].
    destruct (step_duringDrag rev s ev Hev Hd) as [Hs Hc].
    destruct (step rev s ev) as [s1 c1]; cbn in Hs, Hc.
    assert (Hd1 : isDragging s1 = true) by (destruct Hs as (E & _); congruence).
    destruct (IH s1 Hevs Hd1) as [Hs' Hc'].
    destruct (run rev s1 evs) as [s2 c2]; cbn in *.
    split; [eapply sameColors_trans; eassumption|].
    now rewrite List.filter_app, Hc, Hc'.
Qed.

(** In both revisions of RobotBuilder.tsx a pointer-down that finds no
    joint, or a joint without a value, changes nothing and calls nothing. *)
Lemma handlePointerDown_ignored (e : ThreeEvent) (s : State) :
  beginsDrag e = false -> handlePointerDown e s = (s, []).
Proof.
  unfold beginsDrag, handlePointerDown.
  destruct (findURDFJointFromObject (object e)) as [j|]; [|reflexivity].
  now intros ->.
Qed.

Lemma beginsDrag_false_iff (e : ThreeEvent) :
  beginsDrag e = false <->
  findURDFJointFromObject (object e) = None
  \/ exists joint, findURDFJointFromObject (object e) = Some joint
                   /\ jointValue joint = [].
Proof.
  unfold beginsDrag, hasJointValue.
  destruct (findURDFJointFromObject (object e)) as [j|].
  - destruct (jointValue j) as [|v l] eqn:E; cbn; split; intros H; trivial.
    + right. now exists j.
    + discriminate.
    + destruct H as [H|(j' & H & H')]; [discriminate|]. congruence.
  - split; auto.
Qed.

(** C4.  In both revisions of RobotBuilder.tsx a pointer-down on a
    part whose joint lookup finds no joint, or finds a joint with an empty
    [jointValue], is ignored: the state after it is the state before it,
    so the selected joint, the selected mesh, the dragging flag, the
    anchor, the captured colour and every material colour are what they
    were, and no call is made. *)
Theorem pointer_down_on_unmovable_part_is_ignored (rev : Revision) (s : State)
    (e : ThreeEvent) :
  findURDFJointFromObject (object e) = None
  \/ (exists joint, findURDFJointFromObject (object e) = Some joint
                    /\ jointValue joint = []) ->
  step rev s (PointerDown e) = (s, [])
  /\ selectedJoint (fst (step rev s (PointerDown e))) = selectedJoint s
  /\ selectedMesh (fst (step rev s (PointerDown e))) = selectedMesh s
  /\ isDragging (fst (step rev s (PointerDown e))) = isDragging s
  /\ lastMouseX (fst (step rev s (PointerDown e))) = lastMouseX s
  /\ selectedJointColor (fst (step rev s (PointerDown e))) = selectedJointColor s
  /\ material_color (fst (step rev s (PointerDown e))) = material_color s
  /\ snd (run rev s [PointerDown e]) = [].
Proof.
  intros H. apply beginsDrag_false_iff in H.
  cbn [RobotBuilder.run RobotBuilder.step].
  rewrite (handlePointerDown_ignored e s H). now repeat split.
Qed.

Lemma step_isDragging (rev : Revision) (s : State) (ev : Event) :
  dragHasMesh s ->
  isDragging (fst (step rev s ev)) = dragActive (isDragging s) [ev]
  /\ dragHasMesh (fst (step rev s ev)).
Proof.
  intros Hinv. unfold dragHasMesh in *.
  assert (Hsame : isDragging s = dragActive (isDragging s) []
                  /\ (isDragging s = true -> selectedMesh s <> None))
    by (split; [reflexivity|exact Hinv]).
  destruct ev; cbn; try exact Hsame.
  - unfold onPointerOver.
    destruct (negb (isDragging s) && negb (isRotating s)); [|exact Hsame].
    destruct rev, (findURDFJointFromObject (object e)) as [j|]; cbn;
      try destruct (hasJointValue j); exact Hsame.
  - unfold onPointerOut. destruct (negb (isDragging s)); exact Hsame.
  - unfold handlePointerDown, beginsDrag.
    destruct (findURDFJointFromObject (object e)) as [j|];
      [destruct (hasJointValue j)|]; cbn.
    + rewrite orb_true_r. split; [reflexivity|discriminate].
    + rewrite orb_false_r. exact Hsame.
    + rewrite orb_false_r. exact Hsame.
  - unfold handlePointerMove.
    destruct (robot s) as [r|]; [|exact Hsame].
    destruct (isDragging s) eqn:E; cbn; [|split; [exact E|intros H; congruence]].
    assert (Hkeep : forall s', isDragging s' = isDragging s ->
                       selectedMesh s' = selectedMesh s ->
                       isDragging s' = true
                       /\ (isDragging s' = true -> selectedMesh s' <> None)).
    { intros s' -> ->. split; [exact E|]. intros _. now apply Hinv. }
    destruct (selectedJoint s) as [n|]; [|now apply Hkeep].
    destruct (truthy_string n); [|now apply Hkeep].
    unfold dragUpdate.
    destruct (joints r !! n) as [j|]; cbn;
      [destruct (controlsRef s); cbn|]; now apply Hkeep.
  - unfold handlePointerUp. destruct (selectedMesh s) as [m|] eqn:E; cbn.
    + split; [reflexivity|discriminate].
    + destruct (isDragging s); [|split; [reflexivity|discriminate]].
      now destruct Hinv.
  - destruct (onLoad_cases rev keys urdf s) as [[E|[u E]] _]; rewrite E;
      exact Hsame.
Qed.

Lemma dragActive_cons (active : bool) (ev : Event) (evs : list Event) :
  dragActive active (ev :: evs) = dragActive (dragActive active [ev]) evs.
Proof. now destruct ev. Qed.

Lemma dragEnds_cons (active : bool) (ev : Event) (evs : list Event) :
  dragEnds active (ev :: evs) =
    ((if active && negb (dragActive active [ev]) then 1 else 0)
     + dragEnds (dragActive active [ev]) evs)%nat.
Proof.
  destruct ev; cbn; try (now rewrite andb_negb_r).
  - destruct active, (beginsDrag e); reflexivity.
  - now destruct active.
Qed.

Lemma run_isDragging (rev : Revision) (evs : list Event) :
  forall s,
    dragHasMesh s ->
    isDragging (runState rev s evs) = dragActive (isDragging s) evs
    /\ reenabled rev s evs = dragEnds (isDragging s) evs.
Proof.
  unfold RobotBuilder.runState.
  induction evs as [|ev evs IH]; intros s Hinv.
  - now split.
  - destruct (step_isDragging rev s ev Hinv) as [E Hinv1].
    rewrite dragActive_cons, dragEnds_cons.
    cbn [RobotBuilder.run RobotBuilder.reenabled].
    destruct (step rev s ev) as [s1 c1]; cbn [fst] in *.
    destruct (IH s1 Hinv1) as [IH1 IH2].
    destruct (run rev s1 evs) as [s2 c2]; cbn [fst] in *.
    rewrite IH1, IH2, E. unfold enableRotate. rewrite E, negb_involutive.
    now split.
Qed.

(** C6.  After any sequence of events from the state at mount, rotation
    of the camera is enabled exactly when no joint drag is under way,
    where a drag is under way from the pointer-down that begins it until
    the next mouse-up; and along the sequence rotation is switched back
    on once per drag that ends, at its mouse-up. *)
Theorem orbit_enabled_iff_no_drag (rev : Revision) (colors : nat -> Color)
    (evs : list Event) :
  let s := runState rev (initialState colors) evs in
  enableRotate s = negb (isDragging s)
  /\ isDragging s = dragActive false evs
  /\ enableRotate s = negb (dragActive false evs)
  /\ reenabled rev (initialState colors) evs = dragEnds false evs.
Proof.
  cbv zeta.
  destruct (run_isDragging rev evs (initialState colors)) as [E1 E2];
    [discriminate|].
  unfold enableRotate. rewrite E1, E2. now repeat split.
Qed.

(** What [dragActive] and [dragEnds] say about one drag: under way from
    its pointer-down to just before its mouse-up, over after it, and
    counted once as long as no further drag begins. *)
Lemma dragActive_one_drag (active : bool) (pre evs post : list Event) (e : ThreeEvent) :
  beginsDrag e = true ->
  forallb notMouseUp evs = true ->
  forallb duringDrag post = true ->
  dragActive active (pre ++ PointerDown e :: evs) = true
  /\ dragActive active (pre ++ PointerDown e :: evs ++ MouseUp :: post) = false
  /\ dragEnds true (evs ++ MouseUp :: post) = 1%nat.
Proof.
  intros Hb Hevs Hpost.
  assert (A : forall l, forallb notMouseUp l = true -> dragActive true l = true).
  { induction l as [|ev l IH]; [reflexivity|]. cbn [forallb].
    intros H. apply andb_true_iff in H as [H1 H2].
    destruct ev; cbn; auto; discriminate. }
  assert (B : forall l, forallb duringDrag l = true ->
                        dragActive false l = false /\ dragEnds false l = 0%nat).
  { induction l as [|ev l IH]; [now split|]. cbn [forallb].
    intros H. apply andb_true_iff in H as [H1 H2].
    destruct ev; cbn; auto; discriminate. }
  assert (C : forall l a, dragActive a (l ++ PointerDown e :: evs) = true).
  { induction l as [|ev l IH]; intros a.
    - cbn. rewrite Hb, orb_true_r. now apply A.
    - rewrite <- app_comm_cons, dragActive_cons. apply IH. }
  assert (D : forall l a, dragActive a (l ++ MouseUp :: post) = false).
  { induction l as [|ev l IH]; intros a.
    - cbn. now apply B.
    - rewrite <- app_comm_cons, dragActive_cons. apply IH. }
  split; [apply C|]. split.
  - replace (pre ++ PointerDown e :: evs ++ MouseUp :: post)
      with ((pre ++ PointerDown e :: evs) ++ MouseUp :: post)
      by (now rewrite <- app_assoc). apply D.
  - clear C D. induction evs as [|ev l IH].
    + cbn. now destruct (B post Hpost) as [_ ->].
    + cbn [forallb] in Hevs. apply andb_true_iff in Hevs as [H1 H2].
      rewrite <- app_comm_cons, dragEnds_cons.
      destruct ev; cbn; try discriminate; auto.
Qed.

(** Neither restore asks whether a colour is held: [onPointerOut]
    restores whenever no drag is under way and [handlePointerUp] whenever
    a mesh is selected, with whatever the ref holds. *)
Lemma onPointerOut_restores (e : ThreeEvent) (s : State) :
  isDragging s = false ->
  snd (onPointerOut e s) = [material_color_set (id (object e)) (selectedJointColor s)].
Proof. intros H. unfold onPointerOut. now rewrite H. Qed.

Lemma handlePointerUp_restores (mesh : Object3D) (s : State) :
  selectedMesh s = Some mesh ->
  snd (handlePointerUp s) = [material_color_set (id mesh) (selectedJointColor s)].
Proof. intros H. unfold handlePointerUp. now rewrite H. Qed.

(** C9.  Both restores are reached with no colour held.  After hovering
    the thigh mesh, pressing and releasing on it, the release has cleared
    the captured colour and the pointer-out that follows calls
    [color.set] with null.  And when the pointer came over the mesh while
    the camera was being orbited nothing was captured, so the release
    that ends the following drag calls [color.set] with null. *)
Theorem restore_reached_with_no_color (rev : Revision) (colors : nat -> Color) :
  let e := mkThreeEvent Scenario.thighMesh zero in
  let released := runState rev (initialState colors)
                    [PointerOver e; PointerDown e; MouseUp] in
  let pressed := runState rev (initialState colors)
                   [OrbitStart; PointerOver e; OrbitEnd; PointerDown e] in
  isDragging released = false
  /\ selectedJointColor released = None
  /\ snd (step rev released (PointerOut e))
     = [material_color_set (id Scenario.thighMesh) None]
  /\ selectedMesh pressed = Some Scenario.thighMesh
  /\ selectedJointColor pressed = None
  /\ snd (step rev pressed MouseUp)
     = [material_color_set (id Scenario.thighMesh) None].
Proof.
  destruct rev; repeat split.
Qed.

(** C8, as the code has it.  With no drag and no orbit under way, a
    pointer-over of a part whose joint has no value sets no colour and
    leaves the selection, the flags and the anchor as they are; what it
    does is to store the part's present colour as the captured colour. *)
Theorem hover_fixed_joint_only_captures (rev : Revision) (e : ThreeEvent)
    (s : State) (joint : Object3D) :
  isDragging s = false ->
  isRotating s = false ->
  findURDFJointFromObject (object e) = Some joint ->
  jointValue joint = [] ->
  onPointerOver rev e s =
    (set_selectedJointColor (Some (material_color s (id (object e)))) s, [])
  /\ material_color (fst (onPointerOver rev e s)) = material_color s
  /\ selectedJointColor (fst (onPointerOver rev e s))
     = Some (material_color s (id (object e))).
Proof.
  intros Hd Hr Hj Hv. unfold onPointerOver, hasJointValue.
  rewrite Hd, Hr, Hj, Hv. now destruct rev.
Qed.

End Interaction.

(** ** Instances *)

(** C8 as stated fails: hovering the pelvis mesh, whose joint is fixed,
    in the idle state changes the captured colour from none to the grey
    of the mesh, in both revisions. *)
Lemma hover_fixed_joint_changes_state :
  RobotBuilder.isDragging Scenario.idle = false
  /\ RobotBuilder.isRotating Scenario.idle = false
  /\ findURDFJointFromObject Scenario.pelvisMesh = Some Scenario.mount
  /\ jointValue Scenario.mount = []
  /\ RobotBuilder.selectedJointColor Scenario.idle = None
  /\ RobotBuilder.selectedJointColor
       (fst (RobotBuilder.onPointerOver Src (Scenario.over Scenario.pelvisMesh)
               Scenario.idle)) = Some Scenario.grey
  /\ RobotBuilder.selectedJointColor
       (fst (RobotBuilder.onPointerOver Later (Scenario.over Scenario.pelvisMesh)
               Scenario.idle)) = Some Scenario.grey
  /\ fst (RobotBuilder.onPointerOver Src (Scenario.over Scenario.pelvisMesh)
            Scenario.idle) <> Scenario.idle
  /\ fst (RobotBuilder.onPointerOver Later (Scenario.over Scenario.pelvisMesh)
            Scenario.idle) <> Scenario.idle.
Proof.
  repeat split; intros H; apply (f_equal RobotBuilder.selectedJointColor) in H;
    discriminate H.
Qed.

Lemma hover_fixed_joint_only_captures_witness :
  RobotBuilder.onPointerOver Later (Scenario.over Scenario.pelvisMesh) Scenario.idle
  = (RobotBuilder.set_selectedJointColor (Some Scenario.grey) Scenario.idle, [])
  /\ RobotBuilder.material_color
       (fst (RobotBuilder.onPointerOver Later (Scenario.over Scenario.pelvisMesh)
               Scenario.idle)) = Scenario.colors
  /\ RobotBuilder.selectedJointColor
       (fst (RobotBuilder.onPointerOver Later (Scenario.over Scenario.pelvisMesh)
               Scenario.idle)) = Some Scenario.grey.
Proof.
  apply (hover_fixed_joint_only_captures Later (Scenario.over Scenario.pelvisMesh)
           Scenario.idle Scenario.mount); reflexivity.
Defined.

Lemma drag_250_pixels_clamps_to_upper_witness :
  RobotBuilder.newValueOf Scenario.applyQuaternion Src Scenario.hip
    Scenario.cameraBack Scenario.n250 Scenario.dragging = Scenario.two_and_a_half
  /\ snd (RobotBuilder.handlePointerMove Scenario.applyQuaternion
            Scenario.setJointValue Src Scenario.n250 Scenario.dragging)
     = [robot_setJointValue "hip" one].
Proof.
  apply (drag_250_pixels_clamps_to_upper Scenario.applyQuaternion
           Scenario.setJointValue Src Scenario.dragging Scenario.cassie "hip"
           Scenario.hip Scenario.cameraBack Scenario.n250);
    solve [reflexivity | discriminate].
Defined.

Lemma drag_update_applies_clamped_value_witness :
  RobotBuilder.handlePointerMove Scenario.applyQuaternion Scenario.setJointValue
    Later Scenario.n250 Scenario.dragging
  = (RobotBuilder.setRobot
       (Some (Scenario.setJointValue Scenario.cassie "hip" one))
       (RobotBuilder.set_lastMouseX Scenario.n250 Scenario.dragging),
     [robot_setJointValue "hip" one])
  /\ leb (neg one) one = true
  /\ jointValue <$> (joints (Scenario.setJointValue Scenario.cassie "hip" one)
                       !! "hip") = Some [one].
Proof.
  pose proof (drag_update_applies_clamped_value Scenario.applyQuaternion
                Scenario.setJointValue Later Scenario.dragging Scenario.cassie
                "hip" Scenario.hip Scenario.cameraBack Scenario.n250
                eq_refl eq_refl eq_refl ltac:(discriminate) eq_refl eq_refl
                eq_refl eq_refl) as (H1 & H2 & H3 & H4).
  split; [exact H1|]. split; [exact H2|]. reflexivity.
Defined.

Lemma pointer_down_on_unmovable_part_is_ignored_witness :
  RobotBuilder.step Scenario.applyQuaternion Scenario.setJointValue Src
    Scenario.idle (RobotBuilder.PointerDown (Scenario.over Scenario.pelvisMesh))
  = (Scenario.idle, [])
  /\ RobotBuilder.step Scenario.applyQuaternion Scenario.setJointValue Later
       Scenario.idle (RobotBuilder.PointerDown (Scenario.over Scenario.floorMesh))
     = (Scenario.idle, []).
Proof.
  split.
  - apply (pointer_down_on_unmovable_part_is_ignored Scenario.applyQuaternion
             Scenario.setJointValue Src Scenario.idle
             (Scenario.over Scenario.pelvisMesh)).
    right. exists Scenario.mount. split; reflexivity.
  - apply (pointer_down_on_unmovable_part_is_ignored Scenario.applyQuaternion
             Scenario.setJointValue Later Scenario.idle
             (Scenario.over Scenario.floorMesh)).
    left. reflexivity.
Defined.

(** * Further properties of the handlers *)

(** ** More on the order of numbers *)

Lemma SFcompare_Eq_inv (a b : number) :
  SFcompare a b = Some Eq ->
  a = b \/ exists s s', a = S754_zero s /\ b = S754_zero s'.
Proof.
  destruct a as [sa|sa| |sa ma ea], b as [sb|sb| |sb mb eb]; cbn;
    intros H; try discriminate;
    try (right; eauto; fail);
    try (destruct sa; discriminate); try (destruct sb; discriminate);
    try (destruct sa, sb; (discriminate || (left; reflexivity)); fail).
  assert (E : ea = eb /\ ma = mb).
  { destruct sa, sb; try discriminate;
      destruct (ea ?= eb) eqn:He; try discriminate;
      apply Z.compare_eq in He;
      destruct (Pos.compare_cont Eq ma mb) eqn:Hm; try discriminate;
      apply Pos.compare_eq in Hm; auto. }
  destruct E as [-> ->].
  destruct sa, sb; try discriminate; now left.
Qed.

(** A value between the limits is left as it is by [clamp], up to the
    sign of a zero. *)
Lemma clamp_in_range (value lo hi : number) :
  leb lo value = true -> leb value hi = true ->
  strictEq (clamp value lo hi) value = true.
Proof.
  intros Hlo Hhi.
  destruct (leb_not_NaN _ _ Hlo) as [_ Hv].
  pose proof (SFcompare_refl value Hv) as Hrefl.
  assert (Hmin : Math_min hi value = value
                 \/ exists s s', Math_min hi value = S754_zero s
                                 /\ value = S754_zero s').
  { unfold Math_min. unfold leb, SFleb in Hhi.
    rewrite (SFcompare_antisym hi value) in Hhi.
    destruct (SFcompare hi value) as [[]|] eqn:E; cbn in Hhi; try discriminate.
    - destruct (SFcompare_Eq_inv _ _ E) as [->|(s & s' & -> & ->)].
      + left. now destruct value as [[]| | |].
      + destruct s; [right; eauto|now left].
    - now left. }
  assert (Hcmp : SFcompare lo (Math_min hi value) = SFcompare lo value
                 /\ SFcompare (Math_min hi value) value = Some Eq).
  { destruct Hmin as [->|(s & s' & -> & ->)]; [now split|].
    split; [apply SFcompare_zero_r|reflexivity]. }
  destruct Hcmp as [Hc1 Hc2].
  unfold clamp, Math_max, strictEq, SFeqb. rewrite Hc1.
  unfold leb, SFleb in Hlo.
  destruct (SFcompare lo value) as [[]|] eqn:E; try discriminate.
  - destruct lo as [[]| | |]; rewrite ?E, ?Hc2; reflexivity.
  - now rewrite Hc2.
Qed.

Lemma sub_diag (a : number) : isFinite a = true -> sub a a = zero.
Proof.
  destruct a as [s|s| |s m e]; cbn; intros H; try discriminate.
  - now destruct s.
  - unfold sub, SFsub. now rewrite Z.sub_diag.
Qed.

(** ** More on the drag update *)

Section DragUpdateMore.

Variable applyQuaternion : Vector3 -> Quaternion -> Vector3.
Variable setJointValue : URDFRobot -> string -> number -> URDFRobot.

Import RobotBuilder.

#[local] Abbreviation handlePointerMove :=
  (RobotBuilder.handlePointerMove applyQuaternion setJointValue).
#[local] Abbreviation direction := (RobotBuilder.direction applyQuaternion).
#[local] Abbreviation getRotationDirection :=
  (RobotBuilder.getRotationDirection applyQuaternion).
#[local] Abbreviation newValueOf := (RobotBuilder.newValueOf applyQuaternion).
#[local] Abbreviation run := (RobotBuilder.run applyQuaternion setJointValue).
#[local] Abbreviation step := (RobotBuilder.step applyQuaternion setJointValue).

(** The direction is one of NaN, a zero, +1 and -1 in [Src], and +1 or
    -1 in [Later]. *)
Lemma direction_cases (rev : Revision) (joint : Object3D) (camera : Camera) :
  direction rev joint camera = NaN
  \/ (exists s, direction rev joint camera = S754_zero s)
  \/ direction rev joint camera = one
  \/ direction rev joint camera = neg one.
Proof.
  destruct rev; cbn.
  - unfold direction_Src.
    destruct (z (getWorldDirection camera)) as [s|[]| |[] m e]; cbn; eauto.
  - unfold RobotBuilder.getRotationDirection.
    destruct (dot _ _) as [s|[]| |[] m e]; cbn; auto.
Qed.

Lemma currentValueOf_cases (joint : Object3D) :
  currentValueOf joint = zero \/ truthy (currentValueOf joint) = true.
Proof.
  unfold currentValueOf, or_else. destruct (jointValue joint) as [|v l]; [now left|].
  destruct (truthy v) eqn:E; auto.
Qed.

(** [getRotationDirection] of the later revision is +1 when the dot
    product of the turned joint axis with the camera direction is
    negative, a zero or NaN, and -1 when it is positive; it is never
    anything but +1 or -1. *)
Theorem getRotationDirection_plus_or_minus_one (joint : Object3D) (camera : Camera) :
  getRotationDirection joint camera =
    (if ltb zero (dot (applyQuaternion (axis joint) (quaternion joint))
                      (getWorldDirection camera))
     then neg one else one)
  /\ (getRotationDirection joint camera = one
      \/ getRotationDirection joint camera = neg one).
Proof.
  unfold RobotBuilder.getRotationDirection.
  destruct (dot _ _) as [sd|[]| |[] md ed]; cbn; auto.
Qed.

(** In the later revision, with finite pointer coordinates and a finite
    joint value, the value set on the joint is a number within the
    limits, whenever the limits are ordered. *)
Theorem drag_update_Later_within_limits (s : State) (robot0 : URDFRobot)
    (jointName : string) (joint : Object3D) (camera : Camera)
    (e_clientX : number) :
  robot s = Some robot0 ->
  isDragging s = true ->
  selectedJoint s = Some jointName ->
  jointName <> "" ->
  joints robot0 !! jointName = Some joint ->
  controlsRef s = Some camera ->
  leb (lower (limit joint)) (upper (limit joint)) = true ->
  isFinite e_clientX = true ->
  isFinite (lastMouseX s) = true ->
  isFinite (currentValueOf joint) = true ->
  exists value,
    snd (handlePointerMove Later e_clientX s) = [robot_setJointValue jointName value]
    /\ isNaN value = false
    /\ leb (lower (limit joint)) value = true
    /\ leb value (upper (limit joint)) = true.
Proof.
  intros Hr Hd Hs Hn Hj Hc Hl Hx Hm Hv.
  eexists. split; [eapply handlePointerMove_applies; eassumption|].
  pose proof (newValueOf_Later_not_NaN applyQuaternion joint camera e_clientX s
                Hx Hm Hv) as HN.
  destruct (clamp_within _ _ _ Hl HN) as [H1 H2].
  split; [|now split]. now destruct (leb_not_NaN _ _ H1).
Qed.

(** A mouse move that brings no horizontal displacement sets the joint
    to a value [===] to the one it has, when that value lies within the
    limits: the drag does not drift. *)
Theorem drag_without_movement_keeps_value (rev : Revision) (s : State)
    (robot0 : URDFRobot) (jointName : string) (joint : Object3D)
    (camera : Camera) :
  robot s = Some robot0 ->
  isDragging s = true ->
  selectedJoint s = Some jointName ->
  jointName <> "" ->
  joints robot0 !! jointName = Some joint ->
  controlsRef s = Some camera ->
  isFinite (lastMouseX s) = true ->
  isNaN (direction rev joint camera) = false ->
  leb (lower (limit joint)) (currentValueOf joint) = true ->
  leb (currentValueOf joint) (upper (limit joint)) = true ->
  exists value,
    snd (handlePointerMove rev (lastMouseX s) s) = [robot_setJointValue jointName value]
    /\ strictEq value (currentValueOf joint) = true.
Proof.
  intros Hr Hd Hs Hn Hj Hc Hm Hdir Hlo Hhi.
  eexists. split; [eapply handlePointerMove_applies; eassumption|].
  assert (E : newValueOf rev joint camera (lastMouseX s) s = currentValueOf joint).
  { unfold RobotBuilder.newValueOf. rewrite (sub_diag _ Hm).
    assert (Z0 : exists b, mul (mul zero sensitivity) (direction rev joint camera)
                           = S754_zero b).
    { destruct (direction_cases rev joint camera) as [E|[[b E]|[E|E]]];
        rewrite E in *; try discriminate; cbn; eauto. }
    destruct Z0 as [b ->].
    destruct (currentValueOf_cases joint) as [->|Ht].
    - now destruct b.
    - destruct (currentValueOf joint) as [| | |]; try discriminate; reflexivity. }
  rewrite E. now apply clamp_in_range.
Qed.

(** Loading another model does not end a drag: the load callback leaves
    the dragging flag, the selected joint and the selected mesh as they
    are.  When the robot it stores has no joint of the selected name, the
    next mouse move throws: the anchor has moved, nothing else has
    changed and no joint is set. *)
Theorem model_swap_mid_drag_throws (rev : Revision) (s : State)
    (keys : list string) (urdf r : URDFRobot) (jointName : string)
    (e_clientX : number) :
  isDragging s = true ->
  selectedJoint s = Some jointName ->
  jointName <> "" ->
  robot (fst (step rev s (Loaded keys urdf))) = Some r ->
  joints r !! jointName = None ->
  let s1 := fst (step rev s (Loaded keys urdf)) in
  isDragging s1 = true
  /\ selectedJoint s1 = Some jointName
  /\ selectedMesh s1 = selectedMesh s
  /\ step rev s1 (MouseMove e_clientX) = (set_lastMouseX e_clientX s1, [TypeError]).
Proof.
  intros Hd Hs Hn Hr Hj. cbv zeta.
  assert (H : isDragging (fst (step rev s (Loaded keys urdf))) = true
              /\ selectedJoint (fst (step rev s (Loaded keys urdf))) = Some jointName
              /\ selectedMesh (fst (step rev s (Loaded keys urdf))) = selectedMesh s).
  { cbn [RobotBuilder.step]. unfold RobotBuilder.onLoad.
    destruct rev; [now repeat split|].
    destruct (RobotBuilder.setNaturalPositions setJointValue keys urdf) as [[u|] c];
      now repeat split. }
  destruct H as (H1 & H2 & H3). repeat split; trivial.
  set (s1 := fst (step rev s (Loaded keys urdf))) in *.
  cbn [RobotBuilder.step]. unfold RobotBuilder.handlePointerMove.
  rewrite Hr, H1, H2. unfold truthy_string.
  destruct (String.eqb_spec jointName "") as [E|_]; [contradiction|].
  cbn. unfold RobotBuilder.dragUpdate. now rewrite Hj.
Qed.

End DragUpdateMore.

(** ** More on the interaction state machine *)

Section InteractionMore.

Variable applyQuaternion : Vector3 -> Quaternion -> Vector3.
Variable setJointValue : URDFRobot -> string -> number -> URDFRobot.

Import RobotBuilder.

#[local] Abbreviation step := (RobotBuilder.step applyQuaternion setJointValue).
#[local] Abbreviation run := (RobotBuilder.run applyQuaternion setJointValue).
#[local] Abbreviation runState := (RobotBuilder.runState applyQuaternion setJointValue).

(** In both revisions a pointer-down on a part with no joint above it,
    or whose nearest joint has an empty [jointValue], changes nothing and
    calls nothing. *)
Theorem handlePointerDown_ignores_unmovable_part (e : ThreeEvent) (s : State) :
  findURDFJointFromObject (object e) = None
  \/ (exists joint, findURDFJointFromObject (object e) = Some joint
                    /\ jointValue joint = []) ->
  handlePointerDown e s = (s, []).
Proof.
  intros H. unfold handlePointerDown, hasJointValue.
  destruct H as [->|(joint & -> & ->)]; reflexivity.
Qed.

(** A second mouse-up finds nothing selected and does nothing. *)
Theorem handlePointerUp_twice (s : State) :
  handlePointerUp (fst (handlePointerUp s)) = (fst (handlePointerUp s), []).
Proof.
  unfold handlePointerUp at 2 3. destruct (selectedMesh s) as [mesh|] eqn:E; cbn.
  - reflexivity.
  - unfold handlePointerUp. now rewrite E.
Qed.

(** Entering a part and leaving it again, with no drag and no orbit
    under way, leaves every material with the colour it had and no
    colour held as captured. *)
Theorem hover_enter_leave_restores_colors (rev : Revision) (s : State)
    (e : ThreeEvent) :
  isDragging s = false ->
  isRotating s = false ->
  captures rev e = true ->
  let s' := fst (run rev s [PointerOver e; PointerOut e]) in
  (forall mesh, material_color s' mesh = material_color s mesh)
  /\ selectedJointColor s' = None
  /\ isDragging s' = false
  /\ selectedMesh s' = selectedMesh s
  /\ selectedJoint s' = selectedJoint s.
Proof.
  intros Hd Hr Hc. cbv zeta. cbn [RobotBuilder.run RobotBuilder.step].
  unfold onPointerOver, captures in *. rewrite Hd, Hr. cbn [negb andb].
  assert (Hins : forall (f : nat -> Color) i c mesh,
             (<[i := f i]> (<[i := c]> f)) mesh = f mesh).
  { intros f i c mesh. destruct (decide (i = mesh)) as [->|Hne].
    - now rewrite fn_lookup_insert.
    - now rewrite !fn_lookup_insert_ne. }
  assert (Hins1 : forall (f : nat -> Color) i mesh, (<[i := f i]> f) mesh = f mesh).
  { intros f i mesh. destruct (decide (i = mesh)) as [->|Hne].
    - now rewrite fn_lookup_insert.
    - now rewrite fn_lookup_insert_ne. }
  destruct rev, (findURDFJointFromObject (object e)) as [j|]; try discriminate;
    try destruct (hasJointValue j); cbn; unfold onPointerOut; cbn; rewrite Hd; cbn;
    (split; [intros mesh; first [apply Hins | apply Hins1] | repeat split; exact Hd]).
Qed.

Lemma fn_insert_insert_same (f : nat -> Color) (i : nat) (c : Color) (mesh : nat) :
  (<[i := f i]> (<[i := c]> f)) mesh = f mesh.
Proof.
  destruct (decide (i = mesh)) as [->|Hne].
  - now rewrite fn_lookup_insert.
  - now rewrite !fn_lookup_insert_ne.
Qed.

Lemma fn_insert_same (f : nat -> Color) (i : nat) (mesh : nat) :
  (<[i := f i]> f) mesh = f mesh.
Proof.
  destruct (decide (i = mesh)) as [->|Hne].
  - now rewrite fn_lookup_insert.
  - now rewrite fn_lookup_insert_ne.
Qed.

(** Hovering a movable part and pressing on it: the part is highlighted,
    its colour is held as captured and it is the selected mesh. *)
Lemma hover_then_press (rev : Revision) (s : State) (e : ThreeEvent) :
  isDragging s = false ->
  isRotating s = false ->
  beginsDrag e = true ->
  let s2 := fst (run rev s [PointerOver e; PointerDown e]) in
  isDragging s2 = true
  /\ selectedMesh s2 = Some (object e)
  /\ selectedJointColor s2 = Some (material_color s (id (object e)))
  /\ material_color s2 = <[id (object e) := moveableColor rev]> (material_color s).
Proof.
  intros Hd Hr Hb. cbv zeta. cbn [RobotBuilder.run RobotBuilder.step].
  unfold onPointerOver, handlePointerDown, beginsDrag in *. rewrite Hd, Hr. cbn [negb andb].
  destruct (findURDFJointFromObject (object e)) as [j|]; [|discriminate].
  rewrite Hb. destruct rev; cbn; now repeat split.
Qed.

(** The whole gesture: enter a movable part, press, drag (any events
    other than pointer-down and mouse-up), release, leave.  During the
    drag the part shows the highlight colour; afterwards every material
    has the colour it had before, nothing is selected and no colour is
    held. *)
Theorem hover_drag_release_leave_restores_colors (rev : Revision) (s : State)
    (e : ThreeEvent) (evs : list Event) :
  isDragging s = false ->
  isRotating s = false ->
  beginsDrag e = true ->
  forallb duringDrag evs = true ->
  let during := fst (run rev s ([PointerOver e; PointerDown e] ++ evs)) in
  let s' := fst (run rev s ([PointerOver e; PointerDown e] ++ evs
                             ++ [MouseUp; PointerOut e])) in
  material_color during (id (object e)) = moveableColor rev
  /\ (forall mesh, material_color s' mesh = material_color s mesh)
  /\ selectedJointColor s' = None
  /\ selectedMesh s' = None
  /\ selectedJoint s' = None
  /\ isDragging s' = false.
Proof.
  intros Hd Hr Hb Hevs. cbv zeta.
  destruct (hover_then_press rev s e Hd Hr Hb) as (P1 & P2 & P3 & P4).
  rewrite !run_app. cbn [fst].
  set (s2 := fst (run rev s [PointerOver e; PointerDown e])) in *.
  destruct (run_duringDrag applyQuaternion setJointValue rev evs s2 Hevs P1)
    as [(E1 & E2 & E3 & E4) _].
  set (s3 := fst (run rev s2 evs)) in *.
  split.
  - rewrite E4, P4. apply fn_lookup_insert.
  - cbn [RobotBuilder.run RobotBuilder.step]. unfold handlePointerUp.
    rewrite E2, P2. cbn. unfold onPointerOut. cbn.
    split; [|now repeat split].
    intros mesh. rewrite E3, P3. cbn. rewrite fn_lookup_insert.
    rewrite E4, P4.
    destruct (decide (id (object e) = mesh)) as [<-|Hne].
    + now rewrite !fn_lookup_insert.
    + now rewrite !fn_lookup_insert_ne.
Qed.


Lemma fst_run_cons (rev : Revision) (s : State) (ev : Event) (evs : list Event) :
  fst (run rev s (ev :: evs)) = fst (run rev (fst (step rev s ev)) evs).
Proof.
  cbn. destruct (step rev s ev) as [s1 c1]. cbn [fst].
  now destruct (run rev s1 evs).
Qed.

(** The captured colour is one slot for all parts.  When the pointer
    enters a second part before it has left the first, leaving the first
    part gives it the colour captured from the second, and the later
    leave of the second part restores nothing. *)
Theorem second_hover_takes_over_captured_color (rev : Revision) (s : State)
    (e1 e2 : ThreeEvent) :
  isDragging s = false ->
  isRotating s = false ->
  captures rev e2 = true ->
  id (object e1) <> id (object e2) ->
  let s' := fst (run rev s [PointerOver e1; PointerOver e2; PointerOut e1]) in
  material_color s' (id (object e1)) = material_color s (id (object e2))
  /\ selectedJointColor s' = None
  /\ snd (step rev s' (PointerOut e2)) = [material_color_set (id (object e2)) None].
Proof.
  intros Hd Hr Hc Hne. cbv zeta. rewrite !fst_run_cons. cbn [RobotBuilder.run fst].
  cbn [RobotBuilder.step].
  unfold captures in Hc.
  assert (H1 : isDragging (fst (onPointerOver rev e1 s)) = false
               /\ isRotating (fst (onPointerOver rev e1 s)) = false
               /\ material_color (fst (onPointerOver rev e1 s)) (id (object e2))
                  = material_color s (id (object e2))).
  { unfold onPointerOver. rewrite Hd, Hr. cbn [negb andb].
    destruct rev, (findURDFJointFromObject (object e1)) as [j|];
      try destruct (hasJointValue j); cbn; repeat split; trivial;
      now rewrite fn_lookup_insert_ne. }
  set (s1 := fst (onPointerOver rev e1 s)) in *.
  destruct H1 as (D1 & R1 & C1).
  assert (H2 : isDragging (fst (onPointerOver rev e2 s1)) = false
               /\ selectedJointColor (fst (onPointerOver rev e2 s1))
                  = Some (material_color s (id (object e2)))).
  { unfold onPointerOver. rewrite D1, R1. cbn [negb andb].
    destruct rev, (findURDFJointFromObject (object e2)) as [j|]; try discriminate;
      try destruct (hasJointValue j); cbn; now rewrite C1. }
  set (s2 := fst (onPointerOver rev e2 s1)) in *.
  destruct H2 as (D2 & J2).
  unfold onPointerOut. rewrite D2. cbn. rewrite J2. cbn.
  rewrite fn_lookup_insert, D2. now repeat split.
Qed.

Lemma selectionConsistent_same (s s' : State) :
  selectedMesh s' = selectedMesh s ->
  isDragging s' = isDragging s ->
  selectedJoint s' = selectedJoint s ->
  selectionConsistent s -> selectionConsistent s'.
Proof. unfold selectionConsistent. now intros -> -> ->. Qed.

Lemma step_selectionConsistent (rev : Revision) (s : State) (ev : Event) :
  selectionConsistent s -> selectionConsistent (fst (step rev s ev)).
Proof.
  intros H. destruct ev; cbn; try exact H.
  - unfold onPointerOver.
    destruct (negb (isDragging s) && negb (isRotating s)); [|exact H].
    destruct rev, (findURDFJointFromObject (object e)) as [j|];
      try destruct (hasJointValue j); exact H.
  - unfold onPointerOut. destruct (negb (isDragging s)); exact H.
  - unfold handlePointerDown.
    destruct (findURDFJointFromObject (object e)) as [j|] eqn:Ej; [|exact H].
    destruct (hasJointValue j) eqn:Ev; [|exact H].
    unfold selectionConsistent; cbn. split; [reflexivity|]. now exists j.
  - unfold handlePointerMove.
    destruct (robot s) as [r|]; [|exact H].
    destruct (isDragging s) eqn:E; [|exact H].
    destruct (selectedJoint s) as [n|] eqn:En; [|exact H].
    destruct (truthy_string n); [|exact H].
    unfold dragUpdate.
    destruct (joints r !! n) as [j|]; cbn;
      [destruct (controlsRef s); cbn|];
      (apply (selectionConsistent_same s); cbn; congruence).
  - unfold handlePointerUp. destruct (selectedMesh s) as [m|] eqn:E; [|exact H].
    unfold selectionConsistent; cbn. now split.
  - destruct (onLoad_cases setJointValue rev keys urdf s) as [[E|[u E]] _];
      rewrite E; exact H.
Qed.

Lemma run_selectionConsistent (rev : Revision) (evs : list Event) :
  forall s,
    selectionConsistent s -> selectionConsistent (fst (run rev s evs)).
Proof.
  induction evs as [|ev evs IH]; intros s H; cbn; [exact H|].
  pose proof (step_selectionConsistent rev s ev H) as H1.
  destruct (step rev s ev) as [s1 c1]; cbn [fst] in *.
  specialize (IH s1 H1).
  now destruct (run rev s1 evs).
Qed.

(** After any sequence of events from the state at mount the selection
    is consistent: either no mesh and no joint is selected and no drag
    is under way, or a drag is under way on a selected mesh and the
    selected joint is the nearest joint of that mesh, with a value. *)
Theorem selection_stays_consistent (rev : Revision) (colors : nat -> Color)
    (evs : list Event) :
  selectionConsistent (runState rev (initialState colors) evs).
Proof.
  apply run_selectionConsistent. unfold selectionConsistent; cbn. now split.
Qed.

Lemma setsOnly_mono (names names' : list string) (c : Call) :
  (forall n, In n names -> In n names') -> setsOnly names c -> setsOnly names' c.
Proof. destruct c; cbn; auto. Qed.

Lemma setNaturalPositions_setsOnly (keys : list string) :
  forall urdf names,
    (forall k, In k keys -> In k names) ->
    Forall (setsOnly names)
      (snd (RobotBuilder.setNaturalPositions setJointValue keys urdf)).
Proof.
  induction keys as [|k keys IH]; intros urdf names Hin; cbn; [constructor|].
  destruct (joints urdf !! k) as [j|]; [|repeat constructor].
  specialize (IH (setJointValue urdf k (naturalValue j)) names
                (fun k' H => Hin k' (or_intror H))).
  destruct (RobotBuilder.setNaturalPositions setJointValue keys _) as [r c].
  constructor; [|exact IH]. cbn. apply Hin. now left.
Qed.

(** One step: the joints it sets, and the joint it leaves selected, are
    among those that were selected before or that the event makes
    available. *)
Lemma step_setsOnly (rev : Revision) (s : State) (ev : Event) (names : list string) :
  (forall n, selectedJoint s = Some n -> In n names) ->
  Forall (setsOnly (names ++ settableBy rev ev)) (snd (step rev s ev))
  /\ (forall n, selectedJoint (fst (step rev s ev)) = Some n ->
                In n (names ++ settableBy rev ev)).
Proof.
  intros H.
  assert (Hkeep : forall n, selectedJoint s = Some n ->
                            In n (names ++ settableBy rev ev))
    by (intros n Hn; apply in_or_app; left; now apply H).
  clear H.
  destruct ev; cbn [RobotBuilder.step].
  - unfold onPointerOver.
    destruct (negb (isDragging s) && negb (isRotating s));
      [|split; [constructor|exact Hkeep]].
    destruct rev, (findURDFJointFromObject (object e)) as [j|];
      try destruct (hasJointValue j); (split; [repeat constructor|exact Hkeep]).
  - unfold onPointerOut.
    destruct (negb (isDragging s)); (split; [repeat constructor|exact Hkeep]).
  - unfold handlePointerDown. cbn [settableBy] in *.
    destruct (findURDFJointFromObject (object e)) as [j|];
      [|split; [constructor|exact Hkeep]].
    destruct (hasJointValue j); [|split; [constructor|exact Hkeep]].
    split; [constructor|]. cbn. intros n Hn. injection Hn as <-.
    apply in_or_app. right. now left.
  - unfold handlePointerMove.
    destruct (robot s) as [r|]; [|split; [constructor|exact Hkeep]].
    destruct (isDragging s); [|split; [constructor|exact Hkeep]].
    destruct (selectedJoint s) as [n|] eqn:En;
      [|split; [cbn; constructor|cbn; intros n' Hn'; congruence]].
    assert (Hn : In n (names ++ settableBy rev (MouseMove e_clientX)))
      by now apply Hkeep.
    assert (Hsel : forall s', selectedJoint s' = Some n ->
                     forall n', selectedJoint s' = Some n' ->
                       In n' (names ++ settableBy rev (MouseMove e_clientX)))
      by (intros s' E n' E'; congruence).
    destruct (truthy_string n); [|split; [constructor|now apply Hsel]].
    unfold dragUpdate.
    destruct (joints r !! n) as [j|]; cbn;
      [destruct (controlsRef s); cbn|];
      (split; [repeat constructor; exact Hn|now apply Hsel]).
  - unfold handlePointerUp.
    destruct (selectedMesh s); cbn; (split; [repeat constructor|]);
      [discriminate|exact Hkeep].
  - split; [constructor|exact Hkeep].
  - split; [constructor|exact Hkeep].
  - unfold RobotBuilder.onLoad. cbn [settableBy] in *.
    destruct rev; [split; [constructor|exact Hkeep]|].
    pose proof (setNaturalPositions_setsOnly keys urdf (names ++ keys)
                  (fun k Hk => in_or_app _ _ _ (or_intror Hk))) as Hc.
    destruct (RobotBuilder.setNaturalPositions setJointValue keys urdf) as [[u|] c];
      cbn in *; (split; [exact Hc|exact Hkeep]).
  - split; [constructor|exact Hkeep].
Qed.

Lemma settable_cons (rev : Revision) (ev : Event) (evs : list Event) :
  settable rev (ev :: evs) = settableBy rev ev ++ settable rev evs.
Proof. reflexivity. Qed.

Lemma run_setsOnly (rev : Revision) (evs : list Event) :
  forall s names,
    (forall n, selectedJoint s = Some n -> In n names) ->
    Forall (setsOnly (names ++ settable rev evs)) (snd (run rev s evs)).
Proof.
  induction evs as [|ev evs IH]; intros s names H; cbn [RobotBuilder.run].
  - constructor.
  - destruct (step_setsOnly rev s ev names H) as [H1 H2].
    destruct (step rev s ev) as [s1 c1]; cbn [fst snd] in *.
    specialize (IH s1 (names ++ settableBy rev ev) H2).
    destruct (run rev s1 evs) as [s2 c2]; cbn [fst snd] in *.
    rewrite settable_cons, app_assoc. apply Forall_app. split; [|exact IH].
    revert H1. apply Forall_impl.
    intros c. apply setsOnly_mono. intros n Hn. apply in_or_app. now left.
Qed.

(** Whatever the events from the state at mount, every [setJointValue]
    call of the run names either the joint an earlier pointer-down of the
    run selected (the nearest joint of the part it hit, with a value at
    that moment) or a key the later revision's load callback was given. *)
Theorem only_pressed_or_loaded_joints_are_set (rev : Revision)
    (colors : nat -> Color) (evs : list Event) :
  Forall (setsOnly (settable rev evs)) (snd (run rev (initialState colors) evs)).
Proof.
  apply (run_setsOnly rev evs (initialState colors) []). discriminate.
Qed.

Lemma step_isRotating (rev : Revision) (s : State) (ev : Event) :
  isRotating (fst (step rev s ev)) = orbiting (isRotating s) [ev].
Proof.
  destruct ev; cbn; trivial.
  - unfold onPointerOver.
    destruct (negb (isDragging s) && negb (isRotating s)); [|reflexivity].
    destruct rev, (findURDFJointFromObject (object e)) as [j|];
      try destruct (hasJointValue j); reflexivity.
  - unfold onPointerOut. destruct (negb (isDragging s)); reflexivity.
  - unfold handlePointerDown.
    destruct (findURDFJointFromObject (object e)) as [j|]; [|reflexivity].
    destruct (hasJointValue j); reflexivity.
  - unfold handlePointerMove.
    destruct (robot s) as [r|]; [|reflexivity].
    destruct (isDragging s); [|reflexivity].
    destruct (selectedJoint s) as [n|]; [|reflexivity].
    destruct (truthy_string n); [|reflexivity].
    unfold dragUpdate.
    destruct (joints r !! n) as [j|]; cbn;
      [destruct (controlsRef s); cbn|]; reflexivity.
  - unfold handlePointerUp. destruct (selectedMesh s); reflexivity.
  - destruct (onLoad_cases setJointValue rev keys urdf s) as [[E|[u E]] _];
      now rewrite E.
Qed.

Lemma orbiting_cons (active : bool) (ev : Event) (evs : list Event) :
  orbiting active (ev :: evs) = orbiting (orbiting active [ev]) evs.
Proof. now destruct ev. Qed.

(** [isRotating] follows the start and end notifications of the orbit
    controls and nothing else; and a pointer-down, unlike a pointer-over,
    does not look at it: it begins a drag during an orbit as it does
    otherwise. *)
Theorem isRotating_follows_orbit_events (rev : Revision) (s : State)
    (evs : list Event) (e : ThreeEvent) (b : bool) :
  isRotating (runState rev s evs) = orbiting (isRotating s) evs
  /\ handlePointerDown e (setIsRotating b s)
     = (setIsRotating b (fst (handlePointerDown e s)),
        snd (handlePointerDown e s)).
Proof.
  split.
  - unfold RobotBuilder.runState. revert s.
    induction evs as [|ev evs IH]; intros s; [reflexivity|].
    rewrite orbiting_cons, <- (step_isRotating rev s ev). cbn [RobotBuilder.run].
    destruct (step rev s ev) as [s1 c1]. cbn [fst].
    rewrite <- IH. now destruct (run rev s1 evs).
  - unfold handlePointerDown.
    destruct (findURDFJointFromObject (object e)) as [j|]; [|reflexivity].
    destruct (hasJointValue j); reflexivity.
Qed.

End InteractionMore.

(** ** The load callback of the later revision *)

Lemma digits2_pos_bound (m : positive) : Zpos m < 2 ^ Zpos (digits2_pos m).
Proof.
  induction m as [p IH|p IH|]; cbn [digits2_pos].
  - rewrite Pos2Z.inj_succ, Z.pow_succ_r, Pos2Z.inj_xI by lia. lia.
  - rewrite Pos2Z.inj_succ, Z.pow_succ_r, Pos2Z.inj_xO by lia. lia.
  - reflexivity.
Qed.

(** What [<] says about two positive finite numbers. *)
Lemma ltb_finite_inv (m m' : positive) (e e' : Z) :
  ltb (S754_finite false m e) (S754_finite false m' e') = true ->
  e < e' \/ (e = e' /\ (m < m')%positive).
Proof.
  unfold ltb, SFltb. cbn [SFcompare].
  destruct (e ?= e') eqn:He; try discriminate.
  - apply Z.compare_eq in He. intros H. right. split; [exact He|].
    destruct (Pos.compare_cont Eq m m') eqn:Hc; try discriminate H. exact Hc.
  - apply Z.compare_lt_iff in He. now left.
Qed.

(** A binary64 value of magnitude below 1 has integer part 0. *)
Lemma truncate_small (v : number) :
  valid_binary prec emax v = true -> ltb (SFabs v) one = true -> truncate v = 0.
Proof.
  destruct v as [s|s| |s m e]; cbn [truncate]; trivial.
  intros Hvalid Hlt.
  assert (Hsmall : e <= -52 /\ Zpos m < 2 ^ (- e)).
  { cbn [valid_binary] in Hvalid. unfold bounded in Hvalid.
    apply andb_true_iff in Hvalid as [Hcan _].
    unfold canonical_mantissa, fexp in Hcan. apply Z.eqb_eq in Hcan.
    pose proof (digits2_pos_bound m) as Hd.
    assert (Hd53 : Zpos (digits2_pos m) <= 53) by (unfold prec in Hcan; lia).
    unfold one in Hlt. cbn [SFabs] in Hlt.
    destruct (ltb_finite_inv _ _ _ _ Hlt) as [He|[He Hm]].
    - clear Hlt Hcan. split; [lia|].
      apply Z.lt_le_trans with (1 := Hd).
      apply Z.pow_le_mono_r; lia.
    - subst e. clear - Hm. split; [apply Z.le_refl|].
      change (2 ^ (- -52)) with (Zpos 4503599627370496).
      apply Pos2Z.pos_lt_pos, Hm. }
  destruct Hsmall as [He Hm].
  destruct (0 <=? e) eqn:E0; [apply Z.leb_le in E0; lia|].
  rewrite Z.div_small by lia. now destruct s.
Qed.

Section LoadCallback.

Variable setJointValue : URDFRobot -> string -> number -> URDFRobot.

Import RobotBuilder.

#[local] Abbreviation setNaturalPositions :=
  (RobotBuilder.setNaturalPositions setJointValue).
#[local] Abbreviation onLoad := (RobotBuilder.onLoad setJointValue).

Lemma bitor0_not_NaN (v : option number) : isNaN (bitor0 v) = false.
Proof.
  destruct v as [n|]; [|reflexivity]. apply binary_normalize_not_NaN.
Qed.

(** The position a joint is given on load is a number within its
    limits, whenever the limits are ordered, whatever its [jointValue]
    holds: [| 0] turns NaN, the infinities and [undefined] into 0. *)
Theorem naturalValue_within_limits (joint : Object3D) :
  leb (lower (limit joint)) (upper (limit joint)) = true ->
  isNaN (naturalValue joint) = false
  /\ leb (lower (limit joint)) (naturalValue joint) = true
  /\ leb (naturalValue joint) (upper (limit joint)) = true.
Proof.
  intros Hl. unfold naturalValue. cbv zeta.
  destruct (clamp_within _ _ _ Hl (bitor0_not_NaN (head (jointValue joint))))
    as [H1 H2].
  split; [|now split]. now destruct (leb_not_NaN _ _ H1).
Qed.

(** [| 0] drops the fraction: a joint whose value has magnitude below 1
    is given the position [clamp(0, lower, upper)] on load. *)
Theorem naturalValue_drops_fraction (joint : Object3D) (v : number)
    (rest : list number) :
  jointValue joint = v :: rest ->
  valid_binary prec emax v = true ->
  ltb (SFabs v) one = true ->
  naturalValue joint = clamp zero (lower (limit joint)) (upper (limit joint)).
Proof.
  intros Hj Hvalid Hlt. unfold naturalValue. rewrite Hj. cbn [head bitor0].
  unfold ToInt32. now rewrite (truncate_small v Hvalid Hlt).
Qed.

Lemma setNaturalPositions_frame (keys : list string) (urdf0 : URDFRobot) :
  (forall r n v k, k <> n -> joints (setJointValue r n v) !! k = joints r !! k) ->
  forall urdf,
    NoDup keys ->
    Forall (fun k => is_Some (joints urdf0 !! k)) keys ->
    (forall k, k ∈ keys -> joints urdf !! k = joints urdf0 !! k) ->
    exists urdf' calls,
      setNaturalPositions keys urdf = (Some urdf', calls)
      /\ Forall2 (fun k c => exists joint,
                     joints urdf0 !! k = Some joint
                     /\ c = robot_setJointValue k (naturalValue joint))
           keys calls.
Proof.
  intros Hframe. induction keys as [|k keys IH]; intros urdf Hnd Hkeys Hsame.
  - exists urdf, []. split; [reflexivity|constructor].
  - inversion Hnd as [|? ? Hk Hnd']; subst.
    inversion Hkeys as [|? ? [joint Hj] Hrest]; subst.
    cbn [RobotBuilder.setNaturalPositions].
    rewrite (Hsame k) by left. rewrite Hj.
    destruct (IH (setJointValue urdf k (naturalValue joint)) Hnd' Hrest)
      as (u & c & E & F).
    { intros k' Hk'. rewrite Hframe by (intros ->; contradiction).
      apply Hsame. now right. }
    exists u, (robot_setJointValue k (naturalValue joint) :: c).
    rewrite E. split; [reflexivity|]. constructor; [now exists joint|exact F].
Qed.

(** When [setJointValue] leaves the entries of the other joints as they
    are, the loop of the load callback makes one call per key, in the
    order of the keys, and the call for a key carries the natural value
    of the joint the loaded robot has under that key; the robot after
    the last call is the one stored. *)
Theorem setNaturalPositions_sets_every_joint (keys : list string)
    (urdf : URDFRobot) (s : State) :
  (forall r n v k, k <> n -> joints (setJointValue r n v) !! k = joints r !! k) ->
  NoDup keys ->
  Forall (fun k => is_Some (joints urdf !! k)) keys ->
  exists urdf' calls,
    setNaturalPositions keys urdf = (Some urdf', calls)
    /\ Forall2 (fun k c => exists joint,
                   joints urdf !! k = Some joint
                   /\ c = robot_setJointValue k (naturalValue joint))
         keys calls
    /\ onLoad Later keys urdf s = (setRobot (Some urdf') s, calls).
Proof.
  intros Hframe Hnd Hkeys.
  destruct (setNaturalPositions_frame keys urdf Hframe urdf Hnd Hkeys)
    as (u & c & E & F); [reflexivity|].
  exists u, c. repeat split; trivial.
  unfold RobotBuilder.onLoad. now rewrite E.
Qed.

End LoadCallback.

(** ** The hover handlers of RobotScene.tsx *)

Section SceneHover.

Variable setJointValue : URDFRobot -> string -> number -> URDFRobot.

#[local] Abbreviation scene_step := (RobotScene.step setJointValue).
#[local] Abbreviation scene_run := (RobotScene.run setJointValue).

Lemma scene_step_currentHex (s : RobotScene.State) (ev : RobotScene.Event)
    (mesh : nat) :
  RobotScene.notOverOf mesh ev = true ->
  RobotScene.currentHex (fst (scene_step s ev)) mesh = RobotScene.currentHex s mesh.
Proof.
  intros H. destruct ev; cbn in *.
  - apply negb_true_iff, Nat.eqb_neq in H. now rewrite fn_lookup_insert_ne.
  - unfold RobotScene.onPointerOut. now destruct (RobotScene.currentHex s (id (object e))).
  - unfold RobotScene.handlePointerDown.
    destruct (RobotScene.robot s); [|reflexivity].
    now destruct (findURDFJointFromObject (object e)).
  - unfold RobotScene.handlePointerMove.
    destruct (RobotScene.isDragging s); [|reflexivity].
    destruct (RobotScene.robot s) as [r|]; [|reflexivity].
    destruct (RobotScene.selectedJoint s) as [n|]; [|reflexivity].
    destruct (truthy_string n); [|reflexivity].
    unfold RobotScene.dragUpdate. now destruct (joints r !! n).
  - reflexivity.
  - reflexivity.
Qed.

Lemma scene_run_restores (e : ThreeEvent) (c : Color) (evs : list RobotScene.Event) :
  forall s,
    RobotScene.currentHex s (id (object e)) = Some c ->
    forallb (RobotScene.notOverOf (id (object e))) evs = true ->
    RobotScene.material_color
      (fst (scene_run s (evs ++ [RobotScene.PointerOut e]))) (id (object e)) = c.
Proof.
  induction evs as [|ev evs IH]; intros s Hc Hevs.
  - cbn. unfold RobotScene.onPointerOut. rewrite Hc. cbn. apply fn_lookup_insert.
  - cbn [forallb] in Hevs. apply andb_true_iff in Hevs as [Hev Hevs].
    pose proof (scene_step_currentHex s ev _ Hev) as H1. rewrite Hc in H1.
    rewrite <- app_comm_cons. cbn [RobotScene.run].
    destruct (scene_step s ev) as [s1 c1]. cbn [fst] in H1.
    specialize (IH s1 H1 Hevs).
    now destruct (scene_run s1 (evs ++ [RobotScene.PointerOut e])).
Qed.

(** In RobotScene.tsx every mesh keeps its own captured colour: after
    the pointer has entered a mesh, whatever happens next short of a
    further pointer-over of that mesh (entering and leaving other meshes,
    presses, drags), leaving it shows the colour it had on entry. *)
Theorem RobotScene_hover_restores_own_color (s : RobotScene.State)
    (e : ThreeEvent) (evs : list RobotScene.Event) :
  forallb (RobotScene.notOverOf (id (object e))) evs = true ->
  RobotScene.material_color
    (fst (scene_run s (RobotScene.PointerOver e :: evs ++ [RobotScene.PointerOut e])))
    (id (object e))
  = RobotScene.material_color s (id (object e)).
Proof.
  intros Hevs. cbn [RobotScene.run RobotScene.step].
  unfold RobotScene.onPointerOver. cbv zeta.
  set (s1 := RobotScene.mkState _ _ _ _ _ _).
  assert (H1 : RobotScene.currentHex s1 (id (object e))
               = Some (RobotScene.material_color s (id (object e))))
    by apply fn_lookup_insert.
  pose proof (scene_run_restores e _ evs s1 H1 Hevs) as H.
  now destruct (scene_run s1 (evs ++ [RobotScene.PointerOut e])).
Qed.

End SceneHover.

(** ** Instances of the further properties *)

Lemma Scenario_setJointValue_frame (r : URDFRobot) (n : string)
    (v : number) (k : string) :
  k <> n -> joints (Scenario.setJointValue r n v) !! k = joints r !! k.
Proof.
  intros Hne. unfold Scenario.setJointValue.
  destruct (joints r !! n) as [j|]; [|reflexivity]. cbn.
  now rewrite lookup_insert_ne.
Qed.

Lemma handlePointerMove_within_limits_witness :
  exists value,
    snd (RobotBuilder.handlePointerMove Scenario.applyQuaternion
           Scenario.setJointValue Src Scenario.n250 Scenario.dragging)
    = [robot_setJointValue "hip" value]
    /\ value = clamp (RobotBuilder.newValueOf Scenario.applyQuaternion Src
                        Scenario.hip Scenario.cameraBack Scenario.n250
                        Scenario.dragging)
                 (lower (limit Scenario.hip)) (upper (limit Scenario.hip))
    /\ leb (lower (limit Scenario.hip)) value = true
    /\ leb value (upper (limit Scenario.hip)) = true.
Proof.
  apply (handlePointerMove_within_limits Scenario.applyQuaternion
           Scenario.setJointValue Src Scenario.dragging Scenario.cassie "hip"
           Scenario.hip Scenario.cameraBack Scenario.n250);
    solve [reflexivity | discriminate].
Defined.

Lemma drag_update_Later_within_limits_witness :
  exists value,
    snd (RobotBuilder.handlePointerMove Scenario.applyQuaternion
           Scenario.setJointValue Later Scenario.n250 Scenario.dragging)
    = [robot_setJointValue "hip" value]
    /\ isNaN value = false
    /\ leb (lower (limit Scenario.hip)) value = true
    /\ leb value (upper (limit Scenario.hip)) = true.
Proof.
  apply (drag_update_Later_within_limits Scenario.applyQuaternion
           Scenario.setJointValue Scenario.dragging Scenario.cassie "hip"
           Scenario.hip Scenario.cameraBack Scenario.n250);
    solve [reflexivity | discriminate].
Defined.

Lemma drag_without_movement_keeps_value_witness :
  exists value,
    snd (RobotBuilder.handlePointerMove Scenario.applyQuaternion
           Scenario.setJointValue Src
           (RobotBuilder.lastMouseX Scenario.dragging) Scenario.dragging)
    = [robot_setJointValue "hip" value]
    /\ strictEq value (RobotBuilder.currentValueOf Scenario.hip) = true.
Proof.
  apply (drag_without_movement_keeps_value Scenario.applyQuaternion
           Scenario.setJointValue Src Scenario.dragging Scenario.cassie "hip"
           Scenario.hip Scenario.cameraBack);
    solve [reflexivity | discriminate].
Defined.

Lemma model_swap_mid_drag_throws_witness :
  RobotBuilder.step Scenario.applyQuaternion Scenario.setJointValue Later
    (fst (RobotBuilder.step Scenario.applyQuaternion Scenario.setJointValue Later
            Scenario.dragging (RobotBuilder.Loaded ["mount"] Scenario.mountOnly)))
    (RobotBuilder.MouseMove Scenario.n250)
  = (RobotBuilder.set_lastMouseX Scenario.n250
       (fst (RobotBuilder.step Scenario.applyQuaternion Scenario.setJointValue
               Later Scenario.dragging
               (RobotBuilder.Loaded ["mount"] Scenario.mountOnly))),
     [TypeError])
  /\ snd (RobotBuilder.step Scenario.applyQuaternion Scenario.setJointValue Later
            Scenario.dragging (RobotBuilder.Loaded ["mount"] Scenario.mountOnly))
     = [robot_setJointValue "mount" zero].
Proof.
  split; [|reflexivity].
  apply (model_swap_mid_drag_throws Scenario.applyQuaternion
           Scenario.setJointValue Later Scenario.dragging ["mount"]
           Scenario.mountOnly
           (Scenario.setJointValue Scenario.mountOnly "mount" zero) "hip"
           Scenario.n250);
    solve [reflexivity | discriminate].
Defined.

Lemma handlePointerDown_ignores_unmovable_part_witness :
  RobotBuilder.handlePointerDown (Scenario.over Scenario.pelvisMesh) Scenario.idle
  = (Scenario.idle, []).
Proof.
  apply (handlePointerDown_ignores_unmovable_part
           (Scenario.over Scenario.pelvisMesh) Scenario.idle).
  right. exists Scenario.mount. split; reflexivity.
Defined.

Lemma hover_enter_leave_restores_colors_witness :
  RobotBuilder.material_color
    (fst (RobotBuilder.run Scenario.applyQuaternion Scenario.setJointValue Later
            Scenario.idle
            [RobotBuilder.PointerOver (Scenario.over Scenario.thighMesh);
             RobotBuilder.PointerOut (Scenario.over Scenario.thighMesh)]))
    (id Scenario.thighMesh)
  = Scenario.grey.
Proof.
  exact (proj1 (hover_enter_leave_restores_colors Scenario.applyQuaternion
                  Scenario.setJointValue Later Scenario.idle
                  (Scenario.over Scenario.thighMesh)
                  eq_refl eq_refl eq_refl) (id Scenario.thighMesh)).
Defined.

Lemma hover_drag_release_leave_restores_colors_witness :
  RobotBuilder.material_color
    (fst (RobotBuilder.run Scenario.applyQuaternion Scenario.setJointValue Later
            Scenario.idle
            ([RobotBuilder.PointerOver (Scenario.over Scenario.thighMesh);
              RobotBuilder.PointerDown (Scenario.over Scenario.thighMesh)]
             ++ [RobotBuilder.MouseMove Scenario.n250;
                 RobotBuilder.PointerOut (Scenario.over Scenario.thighMesh)])))
    (id Scenario.thighMesh)
  = RobotBuilder.moveableColor Later.
Proof.
  exact (proj1 (hover_drag_release_leave_restores_colors Scenario.applyQuaternion
                  Scenario.setJointValue Later Scenario.idle
                  (Scenario.over Scenario.thighMesh)
                  [RobotBuilder.MouseMove Scenario.n250;
                   RobotBuilder.PointerOut (Scenario.over Scenario.thighMesh)]
                  eq_refl eq_refl eq_refl eq_refl)).
Defined.

Lemma second_hover_takes_over_captured_color_witness :
  RobotBuilder.material_color
    (fst (RobotBuilder.run Scenario.applyQuaternion Scenario.setJointValue Src
            (RobotBuilder.set_material_color (id Scenario.pelvisMesh)
               (Some 0xff0000%N) Scenario.idle)
            [RobotBuilder.PointerOver (Scenario.over Scenario.thighMesh);
             RobotBuilder.PointerOver (Scenario.over Scenario.pelvisMesh);
             RobotBuilder.PointerOut (Scenario.over Scenario.thighMesh)]))
    (id Scenario.thighMesh)
  = 0xff0000%N.
Proof.
  exact (proj1 (second_hover_takes_over_captured_color Scenario.applyQuaternion
                  Scenario.setJointValue Src
                  (RobotBuilder.set_material_color (id Scenario.pelvisMesh)
                     (Some 0xff0000%N) Scenario.idle)
                  (Scenario.over Scenario.thighMesh)
                  (Scenario.over Scenario.pelvisMesh)
                  eq_refl eq_refl eq_refl ltac:(discriminate))).
Defined.

Lemma naturalValue_within_limits_witness :
  isNaN (RobotBuilder.naturalValue Scenario.ankle) = false
  /\ leb (lower (limit Scenario.ankle)) (RobotBuilder.naturalValue Scenario.ankle) = true
  /\ leb (RobotBuilder.naturalValue Scenario.ankle) (upper (limit Scenario.ankle)) = true.
Proof.
  apply (naturalValue_within_limits Scenario.ankle). reflexivity.
Defined.

Lemma naturalValue_drops_fraction_witness :
  RobotBuilder.naturalValue Scenario.ankle
  = clamp zero (lower (limit Scenario.ankle)) (upper (limit Scenario.ankle)).
Proof.
  apply (naturalValue_drops_fraction Scenario.ankle Scenario.seven_tenths []);
    reflexivity.
Defined.

Lemma setNaturalPositions_sets_every_joint_witness :
  exists urdf' calls,
    RobotBuilder.setNaturalPositions Scenario.setJointValue ["mount"; "hip"]
      Scenario.cassie = (Some urdf', calls)
    /\ Forall2 (fun k c => exists joint,
                   joints Scenario.cassie !! k = Some joint
                   /\ c = robot_setJointValue k (RobotBuilder.naturalValue joint))
         ["mount"; "hip"] calls
    /\ RobotBuilder.onLoad Scenario.setJointValue Later ["mount"; "hip"]
         Scenario.cassie Scenario.idle
       = (RobotBuilder.setRobot (Some urdf') Scenario.idle, calls).
Proof.
  apply (setNaturalPositions_sets_every_joint Scenario.setJointValue
           ["mount"; "hip"] Scenario.cassie Scenario.idle).
  - exact Scenario_setJointValue_frame.
  - apply (bool_decide_unpack _). exact I.
  - repeat constructor; eexists; reflexivity.
Defined.

Lemma RobotScene_hover_restores_own_color_witness :
  RobotScene.material_color
    (fst (RobotScene.run Scenario.setJointValue Scenario.sceneIdle
            (RobotScene.PointerOver (Scenario.over Scenario.thighMesh)
             :: [RobotScene.PointerOver (Scenario.over Scenario.pelvisMesh);
                 RobotScene.PointerDown (Scenario.over Scenario.thighMesh);
                 RobotScene.MouseMove Scenario.n250;
                 RobotScene.PointerOut (Scenario.over Scenario.pelvisMesh)]
             ++ [RobotScene.PointerOut (Scenario.over Scenario.thighMesh)])))
    (id Scenario.thighMesh)
  = RobotScene.material_color Scenario.sceneIdle (id Scenario.thighMesh).
Proof.
  apply (RobotScene_hover_restores_own_color Scenario.setJointValue
           Scenario.sceneIdle (Scenario.over Scenario.thighMesh)
           [RobotScene.PointerOver (Scenario.over Scenario.pelvisMesh);
            RobotScene.PointerDown (Scenario.over Scenario.thighMesh);
            RobotScene.MouseMove Scenario.n250;
            RobotScene.PointerOut (Scenario.over Scenario.pelvisMesh)]).
  reflexivity.
Defined.

